(** * ddt_backend: the reminder sweep and the per-user task routes

    A shallow embedding of the three revisions of the backend that the
    repository holds:

    - [Index]   : src/index.js   (Supabase client, current entry point)
    - [Part000] : the [pg] revision (raw SQL through [db.query])
    - [Part001] : the Supabase revision with a per-message [try/catch]

    Conventions.
    - A luxon [DateTime] is its epoch value in milliseconds ([Z]); the zone is
      always 'Asia/Kolkata', a fixed +05:30 offset.
    - Table rows are records, a table is a [list] of rows in storage order.
    - An [async] function is run to completion: its result is the value (or
      the exception) the returned promise settles with, together with the
      console output and the mail submissions it performed, in order. *)

From Stdlib Require Import ZArith List String Ascii Bool Lia Permutation.
From Stdlib Require Import DecimalString Sorted.
Import ListNotations.

Local Open Scope string_scope.
Local Open Scope Z_scope.

(* ------------------------------------------------------------------ *)
(** ** luxon: the part of [DateTime] the sweep uses                     *)
(* ------------------------------------------------------------------ *)

Module Luxon.

(** [DateTime.now().setZone('Asia/Kolkata')]: epoch milliseconds. *)
Definition DateTime := Z.

(** UTC offset of 'Asia/Kolkata' in minutes (no daylight saving). *)
Definition kolkataOffsetMinutes : Z := 330.

(** [dt.plus({ minutes, seconds })]: time units are exact durations. *)
Definition plus (dt : DateTime) (minutes seconds : Z) : DateTime :=
  dt + (minutes * 60 + seconds) * 1000.

(** Calendar fields of a [DateTime] in its zone. *)
Record fields : Type := mkFields
  { year : Z; month : Z; day : Z;
    hour : Z; minute : Z; second : Z; millisecond : Z }.

(** Proleptic Gregorian date of a day number counted from 1970-01-01. *)
Definition civilFromDays (z : Z) : Z * Z * Z :=
  let z := z + 719468 in
  let era := z / 146097 in
  let doe := z - era * 146097 in
  let yoe := (doe - doe / 1460 + doe / 36524 - doe / 146096) / 365 in
  let y := yoe + era * 400 in
  let doy := doe - (365 * yoe + yoe / 4 - yoe / 100) in
  let mp := (5 * doy + 2) / 153 in
  let d := doy - (153 * mp + 2) / 5 + 1 in
  let m := if mp <? 10 then mp + 3 else mp - 9 in
  (if m <=? 2 then y + 1 else y, m, d).

(** Day number of a proleptic Gregorian date (inverse of the above). *)
Definition daysFromCivil (y m d : Z) : Z :=
  let y := if m <=? 2 then y - 1 else y in
  let era := y / 400 in
  let yoe := y - era * 400 in
  let doy := (153 * (if m >? 2 then m - 3 else m + 9) + 2) / 5 + d - 1 in
  let doe := yoe * 365 + yoe / 4 - yoe / 100 + doy in
  era * 146097 + doe - 719468.

Definition toFields (dt : DateTime) : fields :=
  let localMs := dt + kolkataOffsetMinutes * 60000 in
  let secs := localMs / 1000 in
  let days := secs / 86400 in
  let sod := secs mod 86400 in
  let '(y, m, d) := civilFromDays days in
  mkFields y m d (sod / 3600) ((sod mod 3600) / 60) (sod mod 60)
           (localMs mod 1000).

(** The epoch value of local calendar fields (used to read a reminder text
    back as an instant). *)
Definition fromFields (f : fields) : DateTime :=
  ((daysFromCivil (year f) (month f) (day f)) * 86400
   + hour f * 3600 + minute f * 60 + second f) * 1000
  + millisecond f - kolkataOffsetMinutes * 60000.

Definition digits (n : Z) : string :=
  NilZero.string_of_uint (N.to_uint (Z.to_N n)).

Fixpoint zeros (k : nat) : string :=
  match k with
  | O => ""
  | S k => String "0" (zeros k)
  end.

(** luxon's [padStart(input, n)]: zero padding, sign kept in front. *)
Definition padStart (input : Z) (n : nat) : string :=
  if input <? 0
  then "-" ++ zeros (n - String.length (digits (- input))) ++ digits (- input)
  else zeros (n - String.length (digits input)) ++ digits input.

(** Token [hh]: the hour on a 12-hour clock. *)
Definition hour12 (h : Z) : Z :=
  if h mod 12 =? 0 then 12 else h mod 12.

(** Token [a]: the English meridiem. *)
Definition meridiem (h : Z) : string :=
  if h <? 12 then "AM" else "PM".

(** [dt.toFormat('dd/MM/yyyy, hh:mm:ss a')]. *)
Definition toFormat_reminder (dt : DateTime) : string :=
  let f := toFields dt in
  padStart (day f) 2 ++ "/" ++ padStart (month f) 2 ++ "/"
    ++ padStart (year f) 4 ++ ", "
    ++ padStart (hour12 (hour f)) 2 ++ ":" ++ padStart (minute f) 2 ++ ":"
    ++ padStart (second f) 2 ++ " " ++ meridiem (hour f).

(** [dt.toFormat('d/M/yyyy, h:mm:ss a')], the unpadded variant. *)
Definition toFormat_short (dt : DateTime) : string :=
  let f := toFields dt in
  padStart (day f) 1 ++ "/" ++ padStart (month f) 1 ++ "/"
    ++ padStart (year f) 4 ++ ", "
    ++ padStart (hour12 (hour f)) 1 ++ ":" ++ padStart (minute f) 2 ++ ":"
    ++ padStart (second f) 2 ++ " " ++ meridiem (hour f).

(** [dt.toISO()], e.g. [2026-12-01T10:00:00.000+05:30]. *)
Definition toISO (dt : DateTime) : string :=
  let f := toFields dt in
  padStart (year f) 4 ++ "-" ++ padStart (month f) 2 ++ "-"
    ++ padStart (day f) 2 ++ "T"
    ++ padStart (hour f) 2 ++ ":" ++ padStart (minute f) 2 ++ ":"
    ++ padStart (second f) 2 ++ "." ++ padStart (millisecond f) 3
    ++ "+05:30".

End Luxon.

(* ------------------------------------------------------------------ *)
(** ** The two tables behind the store                                  *)
(* ------------------------------------------------------------------ *)

Module Logindata.
(** A row of table [logindata]. *)
Record row : Type := mk
  { id : Z; email : string; password : string;
    firstname : string; lastname : string }.
End Logindata.

Module Post.
(** A row of table [post].  [completestatus] and [currentstatus] are copied
    from the request body as they come, so they may be NULL ([None]);
    [task], [type] and [remindertime] are required by POST /tasks. *)
Record row : Type := mk
  { id : Z; user_id : Z; task : string; type : string;
    timeofentry : option string;
    completestatus : option bool;
    remindertime : string;
    currentstatus : option bool }.
End Post.

Module Db.

Record Store : Type := mkStore
  { logindata : list Logindata.row; post : list Post.row }.

(** SQL [col = v] on a nullable boolean column: NULL never matches. *)
Definition eq_bool (col : option bool) (v : bool) : bool :=
  match col with
  | Some b => Bool.eqb b v
  | None => false
  end.

(** The [logindata] row a [post] row points to through [user_id]. *)
Definition owner (db : Store) (p : Post.row) : option Logindata.row :=
  find (fun l => Logindata.id l =? Post.user_id p) (logindata db).

(** What a request to the store comes back with: Supabase's
    [{ data, error }], or for [pg] a resolved / rejected promise. *)
Inductive response (A : Type) : Type :=
| Data (data : A)
| Error (message : string).
Arguments Data {A} data.
Arguments Error {A} message.

(** One request.  [fault] is the environment's part: [Some m] when the
    store is unreachable or refuses the request, in which case nothing is
    executed; otherwise the statement runs and may itself report an
    error. *)
Definition request {A : Type} (fault : option string)
    (q : Store -> Store * response A) (db : Store) : Store * response A :=
  match fault with
  | Some m => (db, Error m)
  | None => q db
  end.

(** A read-only statement that cannot fail. *)
Definition reading {A : Type} (f : Store -> A)
  : Store -> Store * response A :=
  fun db => (db, Data (f db)).

End Db.

(* ------------------------------------------------------------------ *)
(** ** JavaScript effects: exceptions, console, nodemailer              *)
(* ------------------------------------------------------------------ *)

Module Js.

(** Values thrown inside the sweep. *)
Inductive exn : Type :=
| StoreError (message : string)   (* the store's error object *)
| TypeError (message : string)    (* property read on null *)
| MailError (message : string).   (* sendMail rejected *)

Definition message (e : exn) : string :=
  match e with
  | StoreError m | TypeError m | MailError m => m
  end.

Definition nl : string := String "010"%char "".

(** The argument of [transporter.sendMail]. *)
Record MailOptions : Type := mkMail
  { from : string; to : string; subject : string; text : string }.

Inductive level : Type := log | error.

(** What the sweep does to the outside, in order. *)
Inductive event : Type :=
| Console (l : level) (args : list string)
| SendMail (m : MailOptions) (rejected : option string).

Definition dispatched (e : event) : option MailOptions :=
  match e with
  | SendMail m _ => Some m
  | Console _ _ => None
  end.

Definition delivered (e : event) : option MailOptions :=
  match e with
  | SendMail m None => Some m
  | _ => None
  end.

Definition logged (e : event) : bool :=
  match e with
  | Console _ _ => true
  | SendMail _ _ => false
  end.

(** Messages handed to the Email Dispatcher, and those it accepted. *)
Fixpoint mapFilter {A B : Type} (f : A -> option B) (l : list A) : list B :=
  match l with
  | [] => []
  | a :: l =>
      match f a with
      | Some b => b :: mapFilter f l
      | None => mapFilter f l
      end
  end.

Definition dispatches (evs : list event) : list MailOptions :=
  mapFilter dispatched evs.

Definition deliveries (evs : list event) : list MailOptions :=
  mapFilter delivered evs.

Definition logs (evs : list event) : list event := filter logged evs.

End Js.

(** Bytes that follow 'Tracker ' in the mail template of the source files. *)
Definition trackerGlyph : string :=
  String "195" (String "176" (String "197" (String "184"
    (String "194" (String "169" (String "194" (String "183" ""))))))).

(** Result of one run of [checkAndSendReminders]: the store and the mail
    transport as the run leaves them, what it did, and the exception the
    returned promise rejects with, if any. *)
Record run (Smtp : Type) : Type := mkRun
  { store : Db.Store; smtp : Smtp;
    events : list Js.event; rejected : option Js.exn }.
Arguments mkRun {Smtp} store smtp events rejected.
Arguments store {Smtp} r.
Arguments smtp {Smtp} r.
Arguments events {Smtp} r.
Arguments rejected {Smtp} r.

(** State of a [try] block when control leaves it. *)
Definition block (Smtp : Type) : Type :=
  (Db.Store * Smtp * list Js.event * option Js.exn)%type.

(** [try { body } catch (err) { handler(err) }] where the handler only writes
    to the console. *)
Definition tryCatch {Smtp : Type} (body : block Smtp)
    (handler : Js.exn -> list Js.event) : run Smtp :=
  let '(db, smtp, evs, thrown) := body in
  match thrown with
  | Some err => mkRun db smtp (evs ++ handler err)%list None
  | None => mkRun db smtp evs None
  end.

(* ------------------------------------------------------------------ *)
(** ** src/index.js: [checkAndSendReminders]                            *)
(* ------------------------------------------------------------------ *)

Module Index.

(** The embedded resource [logindata(email, firstname, lastname)]. *)
Record contact : Type := mkContact
  { email : string; firstname : string; lastname : string }.

(** A row of the sweep's query; [logindata] is null when the task's
    [user_id] matches no [logindata] row. *)
Record row : Type := mkRow
  { remindertime : string; completestatus : option bool;
    type : string; task : string; logindata : option contact }.

(** The owner of a row resolved. *)
Definition resolved (r : row) : Prop := logindata r <> None.

(** The three filters of the query.  [remindertime] is a text column, so
    [.gte] / [.lte] compare the stored text with the formatted bound as
    text.  Texts of this format carry the same punctuation at the same
    places, so the store orders them by their first differing character,
    which is what [String.leb] does. *)
Definition due (lower upper : string) (p : Post.row) : bool :=
  Db.eq_bool (Post.completestatus p) false
  && String.leb lower (Post.remindertime p)
  && String.leb (Post.remindertime p) upper.

Definition dueTasks (db : Db.Store) (lower upper : string) : list Post.row :=
  filter (due lower upper) (Db.post db).

Definition embed (db : Db.Store) (p : Post.row) : row :=
  mkRow (Post.remindertime p) (Post.completestatus p) (Post.type p)
        (Post.task p)
        (option_map
           (fun l => mkContact (Logindata.email l) (Logindata.firstname l)
                               (Logindata.lastname l))
           (Db.owner db p)).

Definition selectDue (lower upper : string) (db : Db.Store) : list row :=
  map (embed db) (dueTasks db lower upper).

(** The window of a tick, as the two texts sent to the store. *)
Definition reminderTimeLower (now : Luxon.DateTime) : string :=
  Luxon.toFormat_reminder (Luxon.plus now 14 30).
Definition reminderTimeUpper (now : Luxon.DateTime) : string :=
  Luxon.toFormat_reminder (Luxon.plus now 15 30).

Section Sweep.

Variable SMTP_EMAIL : string.          (* process.env.SMTP_EMAIL *)
Variable Smtp : Type.                  (* state of the transport *)
Variable sendMail : Smtp -> Js.MailOptions -> Smtp * option string.

Definition mailText (c : contact) (r : row) : string :=
  "Dear " ++ firstname c ++ " " ++ lastname c ++ "," ++ Js.nl ++ Js.nl
  ++ "This is a reminder for your task which is scheduled at "
  ++ remindertime r ++ Js.nl
  ++ " Type: " ++ type r ++ Js.nl
  ++ " Task: " ++ task r ++ "." ++ Js.nl
  ++ " Please complete it soon!" ++ Js.nl ++ Js.nl
  ++ "Best regards," ++ Js.nl ++ "Daily task Tracker " ++ trackerGlyph.

(** The object literal [mailOptions]; reading [row.logindata.email] on a
    null [logindata] throws. *)
Definition mailOptions (r : row) : Js.exn + Js.MailOptions :=
  match logindata r with
  | None =>
      inl (Js.TypeError "Cannot read properties of null (reading 'email')")
  | Some c =>
      inr (Js.mkMail SMTP_EMAIL (email c) "Upcoming Task Reminder"
                     (mailText c r))
  end.

(** The messages of a sequence of rows, one for each row whose owner
    resolved. *)
Definition mails (tasks : list row) : list Js.MailOptions :=
  Js.mapFilter
    (fun r => match mailOptions r with
              | inr m => Some m
              | inl _ => None
              end)
    tasks.

(** [for (const row of tasks) { ...; await transporter.sendMail(...) }]:
    an exception leaves the loop. *)
Fixpoint forOf (tasks : list row) (smtp : Smtp)
  : Smtp * list Js.event * option Js.exn :=
  match tasks with
  | [] => (smtp, [], None)
  | r :: rest =>
      match mailOptions r with
      | inl err => (smtp, [], Some err)
      | inr m =>
          match sendMail smtp m with
          | (smtp1, Some reason) =>
              (smtp1, [Js.SendMail m (Some reason)],
               Some (Js.MailError reason))
          | (smtp1, None) =>
              let '(smtp2, evs, thrown) := forOf rest smtp1 in
              (smtp2, Js.SendMail m None :: evs, thrown)
          end
      end
  end.

(** The body of the [try]. *)
Definition tryBlock (now : Luxon.DateTime) (fault : option string)
    (db : Db.Store) (smtp : Smtp) : block Smtp :=
  let lower := reminderTimeLower now in
  let upper := reminderTimeUpper now in
  match Db.request fault (Db.reading (selectDue lower upper)) db with
  | (db1, Db.Error m) => (db1, smtp, [], Some (Js.StoreError m))
  | (db1, Db.Data tasks) =>
      if (0 <? List.length tasks)%nat
      then let '(smtp1, evs, thrown) := forOf tasks smtp in
           (db1, smtp1, evs, thrown)
      else (db1, smtp, [], None)
  end.

(** The [catch] block: its only statement is commented out. *)
Definition catchBlock (err : Js.exn) : list Js.event := [].

Definition checkAndSendReminders (now : Luxon.DateTime)
    (fault : option string) (db : Db.Store) (smtp : Smtp) : run Smtp :=
  tryCatch (tryBlock now fault db smtp) catchBlock.

End Sweep.

Arguments forOf SMTP_EMAIL {Smtp} sendMail tasks smtp.
Arguments tryBlock SMTP_EMAIL {Smtp} sendMail now fault db smtp.
Arguments checkAndSendReminders SMTP_EMAIL {Smtp} sendMail now fault db smtp.

End Index.

(* ------------------------------------------------------------------ *)
(** ** The [pg] revision: [checkAndSendReminders] over raw SQL          *)
(* ------------------------------------------------------------------ *)

Module Part000.

(** A row of the SELECT: [post] joined with [logindata]. *)
Record row : Type := mkRow
  { remindertime : string; completestatus : option bool;
    type : string; task : string;
    email : string; firstname : string; lastname : string;
    parsed_time : Z }.

Definition reminderTimeLower (now : Luxon.DateTime) : string :=
  Luxon.toFormat_reminder (Luxon.plus now 14 30).
Definition reminderTimeUpper (now : Luxon.DateTime) : string :=
  Luxon.toFormat_reminder (Luxon.plus now 15 30).

(** [FROM post p JOIN logindata l ON p.user_id = l.id]: an inner join. *)
Definition joined (db : Db.Store) : list (Post.row * Logindata.row) :=
  flat_map
    (fun p =>
       map (pair p)
           (filter (fun l => Logindata.id l =? Post.user_id p)
                   (Db.logindata db)))
    (Db.post db).

Section Sweep.

(** The server's [TO_TIMESTAMP(text, 'DD/MM/YYYY, HH12:MI:SS AM')] and its
    conversion of a text parameter to a timestamp; [None] when the server
    raises on the text. *)
Variable TO_TIMESTAMP : string -> option Z.
Variable timestamp_in : string -> option Z.

Variable SMTP_EMAIL : string.
Variable Smtp : Type.
Variable sendMail : Smtp -> Js.MailOptions -> Smtp * option string.

(** The WHERE clause on one joined row, [$1] and [$2] already converted:
    [p.completestatus = false AND TO_TIMESTAMP(p.remindertime, ...)
    BETWEEN $1 AND $2].  [None]: the server raised. *)
Definition whereClause (lo hi : Z) (p : Post.row) : option bool :=
  if Db.eq_bool (Post.completestatus p) false
  then option_map (fun ts => (lo <=? ts) && (ts <=? hi))
                  (TO_TIMESTAMP (Post.remindertime p))
  else Some false.

(** The joined rows the WHERE clause accepts. *)
Definition chosen (lo hi : Z) (pl : Post.row * Logindata.row) : bool :=
  match whereClause lo hi (fst pl) with
  | Some true => true
  | _ => false
  end.

(** The SELECT list on one joined row. *)
Definition selectList (pl : Post.row * Logindata.row) : option row :=
  let (p, l) := pl in
  option_map
    (mkRow (Post.remindertime p) (Post.completestatus p) (Post.type p)
           (Post.task p) (Logindata.email l) (Logindata.firstname l)
           (Logindata.lastname l))
    (TO_TIMESTAMP (Post.remindertime p)).

(** The scan of the join.  [None]: the statement raised. *)
Fixpoint where_ (lo hi : Z) (pairs : list (Post.row * Logindata.row))
  : option (list row) :=
  match pairs with
  | [] => Some []
  | pl :: rest =>
      match whereClause lo hi (fst pl) with
      | None => None
      | Some false => where_ lo hi rest
      | Some true =>
          match selectList pl, where_ lo hi rest with
          | Some r, Some rows => Some (r :: rows)
          | _, _ => None
          end
      end
  end.

(** The statement: parameters are converted first, then the WHERE
    clause runs over the join. *)
Definition statement (values : string * string) (db : Db.Store)
  : Db.Store * Db.response (list row) :=
  match timestamp_in (fst values), timestamp_in (snd values) with
  | Some lo, Some hi =>
      match where_ lo hi (joined db) with
      | Some rows => (db, Db.Data rows)
      | None => (db, Db.Error "invalid value for TO_TIMESTAMP")
      end
  | _, _ => (db, Db.Error "invalid input syntax for timestamp")
  end.

(** [db.query(query, values)]. *)
Definition query (fault : option string) (values : string * string)
    (db : Db.Store) : Db.Store * Db.response (list row) :=
  Db.request fault (statement values) db.

Definition mailOptions (r : row) : Js.MailOptions :=
  Js.mkMail SMTP_EMAIL (email r) "Upcoming Task Reminder"
    ("Dear " ++ firstname r ++ " " ++ lastname r ++ "," ++ Js.nl ++ Js.nl
     ++ "This is a reminder for your task which is scheduled at "
     ++ remindertime r ++ Js.nl
     ++ " Type: " ++ type r ++ Js.nl
     ++ " Task: " ++ task r ++ "." ++ Js.nl
     ++ " Please complete it soon!" ++ Js.nl ++ Js.nl
     ++ "Best regards," ++ Js.nl ++ "Daily task Tracker " ++ trackerGlyph).

Fixpoint forOf (rows : list row) (smtp : Smtp)
  : Smtp * list Js.event * option Js.exn :=
  match rows with
  | [] => (smtp, [], None)
  | r :: rest =>
      let m := mailOptions r in
      match sendMail smtp m with
      | (smtp1, Some reason) =>
          (smtp1, [Js.SendMail m (Some reason)],
           Some (Js.MailError reason))
      | (smtp1, None) =>
          let '(smtp2, evs, thrown) := forOf rest smtp1 in
          (smtp2,
           Js.SendMail m None
             :: Js.Console Js.log ["Email sent to " ++ email r] :: evs,
           thrown)
      end
  end.

(** [res.rows] of [pg] is always an array, so the [Array.isArray] guard
    never fires. *)
Definition tryBlock (now : Luxon.DateTime) (fault : option string)
    (db : Db.Store) (smtp : Smtp) : block Smtp :=
  let values := (reminderTimeLower now, reminderTimeUpper now) in
  match query fault values db with
  | (db1, Db.Error m) => (db1, smtp, [], Some (Js.StoreError m))
  | (db1, Db.Data rows) =>
      if (0 <? List.length rows)%nat
      then let '(smtp1, evs, thrown) := forOf rows smtp in
           (db1, smtp1,
            Js.Console Js.log
              ["Tasks found: "
               ++ Luxon.digits (Z.of_nat (List.length rows))] :: evs,
            thrown)
      else (db1, smtp, [], None)
  end.

Definition catchBlock (err : Js.exn) : list Js.event :=
  [Js.Console Js.error ["Error in CheckAndSendReminers:"; Js.message err]].

Definition checkAndSendReminders (now : Luxon.DateTime)
    (fault : option string) (db : Db.Store) (smtp : Smtp) : run Smtp :=
  tryCatch (tryBlock now fault db smtp) catchBlock.

End Sweep.

Arguments forOf SMTP_EMAIL {Smtp} sendMail rows smtp.
Arguments tryBlock TO_TIMESTAMP timestamp_in SMTP_EMAIL {Smtp} sendMail
  now fault db smtp.
Arguments checkAndSendReminders TO_TIMESTAMP timestamp_in SMTP_EMAIL {Smtp}
  sendMail now fault db smtp.

End Part000.

(* ------------------------------------------------------------------ *)
(** ** The Supabase revision with a guarded [sendMail]                  *)
(* ------------------------------------------------------------------ *)

Module Part001.

(** The select list is that of src/index.js (the embedding is named
    [logindata!user_id]); rows and contacts are shared with [Index]. *)
Definition row : Type := Index.row.

Definition windowText (dt : Luxon.DateTime) : string :=
  Luxon.toFormat_short dt.

(** The operand handed to [.filter('remindertime', 'in', ...)]. *)
Definition inOperand (lower upper : Luxon.DateTime) : string :=
  "(" ++ Js.nl
  ++ "        SELECT remindertime " ++ Js.nl
  ++ "        FROM post " ++ Js.nl
  ++ "        WHERE TO_TIMESTAMP(remindertime, 'DD/M/YYYY, H:MM:SS pm') "
  ++ Js.nl
  ++ "          BETWEEN TO_TIMESTAMP('" ++ windowText lower
  ++ "', 'DD/M/YYYY, H:MM:SS pm') " ++ Js.nl
  ++ "          AND TO_TIMESTAMP('" ++ windowText upper
  ++ "', 'DD/M/YYYY, H:MM:SS pm')" ++ Js.nl
  ++ "      )".

Section Sweep.

(** The store's [in] operator: does the stored text belong to the list
    the operand denotes. *)
Variable in_ : string -> string -> bool.

Variable SMTP_EMAIL : string.
Variable Smtp : Type.
Variable sendMail : Smtp -> Js.MailOptions -> Smtp * option string.

(** [.eq('completestatus', false).not('remindertime', 'is', null)
    .filter('remindertime', 'in', operand)]; [remindertime] is never
    null in [Post.row]. *)
Definition due (operand : string) (p : Post.row) : bool :=
  Db.eq_bool (Post.completestatus p) false
  && true
  && in_ (Post.remindertime p) operand.

Definition dueTasks (db : Db.Store) (operand : string) : list Post.row :=
  filter (due operand) (Db.post db).

Definition selectDue (operand : string) (db : Db.Store) : list row :=
  map (Index.embed db) (dueTasks db operand).

Definition mailText (c : Index.contact) (r : row) : string :=
  "Dear " ++ Index.firstname c ++ " " ++ Index.lastname c ++ ","
  ++ Js.nl ++ Js.nl
  ++ "This is a reminder for your task scheduled at "
  ++ Index.remindertime r ++ Js.nl
  ++ "Type: " ++ Index.type r ++ Js.nl
  ++ "Task: " ++ Index.task r ++ "." ++ Js.nl
  ++ "Please complete it soon!" ++ Js.nl ++ Js.nl
  ++ "Best regards," ++ Js.nl ++ "Daily Task Tracker " ++ trackerGlyph.

Definition mailOptions (r : row) : Js.exn + Js.MailOptions :=
  match Index.logindata r with
  | None =>
      inl (Js.TypeError "Cannot read properties of null (reading 'email')")
  | Some c =>
      inr (Js.mkMail SMTP_EMAIL (Index.email c) "Upcoming Task Reminder"
                     (mailText c r))
  end.

Definition mails (tasks : list row) : list Js.MailOptions :=
  Js.mapFilter
    (fun r => match mailOptions r with
              | inr m => Some m
              | inl _ => None
              end)
    tasks.

Definition stamp (now : Luxon.DateTime) : string :=
  "[" ++ Luxon.toISO now ++ "]".

(** The loop: [mailOptions] is built outside the inner [try], the send
    and its log line inside it. *)
Fixpoint forOf (now : Luxon.DateTime) (tasks : list row) (smtp : Smtp)
  : Smtp * list Js.event * option Js.exn :=
  match tasks with
  | [] => (smtp, [], None)
  | r :: rest =>
      match mailOptions r with
      | inl err => (smtp, [], Some err)
      | inr m =>
          let '(smtp1, outcome) := sendMail smtp m in
          let '(smtp2, evs, thrown) := forOf now rest smtp1 in
          match outcome with
          | None =>
              (smtp2,
               Js.SendMail m None
                 :: Js.Console Js.log
                      [stamp now ++ " Email sent to " ++ Js.to m]
                 :: evs,
               thrown)
          | Some reason =>
              (smtp2,
               Js.SendMail m (Some reason)
                 :: Js.Console Js.error
                      [stamp now ++ " Failed to send email to "
                       ++ Js.to m ++ ":"; reason]
                 :: evs,
               thrown)
          end
      end
  end.

Definition tryBlock (now : Luxon.DateTime) (fault : option string)
    (db : Db.Store) (smtp : Smtp) : block Smtp :=
  let lower := Luxon.plus now 14 30 in
  let upper := Luxon.plus now 15 30 in
  let checking :=
    Js.Console Js.log
      [stamp now ++ " Checking tasks for reminder window:";
       "lower: " ++ windowText lower; "upper: " ++ windowText upper] in
  match Db.request fault
          (Db.reading (selectDue (inOperand lower upper))) db with
  | (db1, Db.Error m) =>
      (db1, smtp,
       [checking;
        Js.Console Js.error [stamp now ++ " Supabase query error:"; m]],
       Some (Js.StoreError m))
  | (db1, Db.Data tasks) =>
      if (0 <? List.length tasks)%nat
      then let '(smtp1, evs, thrown) := forOf now tasks smtp in
           (db1, smtp1,
            checking
              :: Js.Console Js.log
                   [stamp now ++ " Tasks found: "
                    ++ Luxon.digits (Z.of_nat (List.length tasks))]
              :: evs,
            thrown)
      else (db1, smtp,
            [checking;
             Js.Console Js.log
               [stamp now ++ " No tasks found for reminder window";
                "lower: " ++ windowText lower;
                "upper: " ++ windowText upper]],
            None)
  end.

Definition catchBlock (now : Luxon.DateTime) (err : Js.exn)
  : list Js.event :=
  [Js.Console Js.error
     [stamp now ++ " Error in checkAndSendReminders:"; Js.message err]].
(* [err.stack], the third argument, is not represented. *)

Definition checkAndSendReminders (now : Luxon.DateTime)
    (fault : option string) (db : Db.Store) (smtp : Smtp) : run Smtp :=
  tryCatch (tryBlock now fault db smtp) (catchBlock now).

End Sweep.

Arguments forOf SMTP_EMAIL {Smtp} sendMail now tasks smtp.
Arguments tryBlock in_ SMTP_EMAIL {Smtp} sendMail now fault db smtp.
Arguments checkAndSendReminders in_ SMTP_EMAIL {Smtp} sendMail
  now fault db smtp.

End Part001.

(* ------------------------------------------------------------------ *)
(** ** src/index.js: [validateToken] and the task routes                *)
(* ------------------------------------------------------------------ *)

Module Http.

(** The fields of [req.body] the task routes read; [None] is a missing
    property. *)
Record body : Type := mkBody
  { task : option string; type : option string;
    timeofentry : option string; completestatus : option bool;
    remindertime : option string; currentstatus : option bool;
    editedtask : option string; editedtype : option string }.

Inductive route : Type :=
| GET_tasks
| GET_taskschange
| POST_tasks
| PATCH_tasks (id : Z)
| PATCH_dtasks (id : Z)
| PUT_tasks (id : Z)
| PATCH_taskschange (id : Z)
| GET_reminders
| GET_reminderspie.

Record request : Type := mkRequest
  { target : route; authorization : option string; payload : body }.

(** What [res.json] is called with. *)
Inductive json : Type :=
| Tasks (rows : list Post.row)
| Task (r : Post.row)
| Reminders (count pendingcount : Z)
| Pie (personalcount familycount workcount groupactivitycount : Z)
| Failure (error : string).

Record response : Type := mkResponse { status : Z; sent : json }.

(** [s.split(" ")]. *)
Fixpoint split (s : string) : list string :=
  match s with
  | EmptyString => [""]
  | String c s' =>
      if Ascii.eqb c " "
      then "" :: split s'
      else match split s' with
           | h :: t => String c h :: t
           | [] => [String c ""]
           end
  end.

(** JavaScript truthiness of an optional string. *)
Definition truthy (v : option string) : bool :=
  match v with
  | Some s => negb (s =? "")%string
  | None => false
  end.

(** The routes that only read. *)
Definition readOnly (r : route) : bool :=
  match r with
  | GET_tasks | GET_taskschange | GET_reminders | GET_reminderspie => true
  | _ => false
  end.

(** Rows a response carries. *)
Definition rowsOf (j : json) : list Post.row :=
  match j with
  | Tasks rows => rows
  | Task r => [r]
  | _ => []
  end.

End Http.

Module IndexHttp.

Import Http.

Section Routes.

(** [jwt.verify(token, jwtSecretKey, cb)]: the decoded [userId] and
    [email], or [None] when [err] is set. *)
Variable verify : string -> option (Z * string).

(** The store's ordering of column [timeofentry]. *)
Variable timeofentry_le : option string -> option string -> bool.

(** The middleware: a response when it ends the request, [req.userId]
    when it calls [next()]. *)
Definition validateToken (req : request) : response + Z :=
  let token :=
    match authorization req with
    | Some authHeader =>
        if (authHeader =? "")%string then Some ""
        else nth_error (split authHeader) 1
    | None => None
    end in
  if negb (truthy token)
  then inl (mkResponse 401 (Failure "Access denied: No token provided"))
  else match token with
       | Some t =>
           match verify t with
           | None => inl (mkResponse 403 (Failure "Invalid or expired token"))
           | Some (userId, _) => inr userId
           end
       | None =>
           inl (mkResponse 401 (Failure "Access denied: No token provided"))
       end.

(** [.order('timeofentry', { ascending: false })]. *)
Fixpoint insertDesc (p : Post.row) (l : list Post.row) : list Post.row :=
  match l with
  | [] => [p]
  | q :: l' =>
      if timeofentry_le (Post.timeofentry q) (Post.timeofentry p)
      then p :: q :: l'
      else q :: insertDesc p l'
  end.

Definition orderDesc (l : list Post.row) : list Post.row :=
  fold_right insertDesc [] l.

Definition owned (userId : Z) (p : Post.row) : bool :=
  Post.user_id p =? userId.

(** The rows of [post] that belong to a user, and the others. *)
Definition own (userId : Z) (db : Db.Store) : list Post.row :=
  filter (owned userId) (Db.post db).

Definition foreign (userId : Z) (db : Db.Store) : list Post.row :=
  filter (fun p => negb (owned userId p)) (Db.post db).

(** [.select('*').eq('user_id', u).eq('completestatus', c)
    .eq('currentstatus', k)]. *)
Definition byStatus (userId : Z) (c k : bool) (p : Post.row) : bool :=
  owned userId p
  && Db.eq_bool (Post.completestatus p) c
  && Db.eq_bool (Post.currentstatus p) k.

Definition listTasks (userId : Z) (c : bool) (failure : string)
    (fault : option string) (db : Db.Store) : Db.Store * response :=
  match Db.request fault
          (Db.reading
             (fun db => orderDesc (filter (byStatus userId c false)
                                          (Db.post db)))) db with
  | (db1, Db.Data tasks) => (db1, mkResponse 200 (Tasks tasks))
  | (db1, Db.Error _) => (db1, mkResponse 500 (Failure failure))
  end.

(** The identifier the store gives to a new row. *)
Definition nextId (db : Db.Store) : Z :=
  1 + fold_right Z.max 0 (map Post.id (Db.post db)).

(** [.insert([{...}]).select('*').single()]. *)
Definition insertPost (mk : Z -> Post.row) (db : Db.Store)
  : Db.Store * Db.response Post.row :=
  let r := mk (nextId db) in
  (Db.mkStore (Db.logindata db) (Db.post db ++ [r])%list, Db.Data r).

Definition postTasks (userId : Z) (b : body) (fault : option string)
    (db : Db.Store) : Db.Store * response :=
  match task b, type b, remindertime b with
  | Some t, Some ty, Some rt =>
      if negb (truthy (task b)) || negb (truthy (type b))
         || negb (truthy (remindertime b))
      then (db, mkResponse 400
                  (Failure "Task, type, and remindertime are required"))
      else
        match Db.request fault
                (insertPost
                   (fun i => Post.mk i userId t ty (timeofentry b)
                                     (completestatus b) rt
                                     (currentstatus b))) db with
        | (db1, Db.Data newTask) => (db1, mkResponse 201 (Task newTask))
        | (db1, Db.Error _) =>
            (db1, mkResponse 500 (Failure "Failed to add task"))
        end
  | _, _, _ =>
      (db, mkResponse 400
             (Failure "Task, type, and remindertime are required"))
  end.

(** [.update(set).eq('id', id).eq('user_id', u).select('*').single()]:
    the change is kept only when exactly one row matches; otherwise the
    store reports an error and nothing is written. *)
Definition updateSingle (id userId : Z) (set : Post.row -> Post.row)
    (db : Db.Store) : Db.Store * Db.response Post.row :=
  let hit p := (Post.id p =? id) && owned userId p in
  match filter hit (Db.post db) with
  | [p] =>
      (Db.mkStore (Db.logindata db)
         (map (fun q => if hit q then set q else q) (Db.post db)),
       Db.Data (set p))
  | _ => (db, Db.Error "JSON object requested, multiple (or no) rows returned")
  end.

(** A property that is [undefined] is left out of the update. *)
Definition orKeep {A : Type} (v : option A) (old : A) : A :=
  match v with
  | Some a => a
  | None => old
  end.

Definition setStatus (b : body) (p : Post.row) : Post.row :=
  Post.mk (Post.id p) (Post.user_id p) (Post.task p) (Post.type p)
          (Post.timeofentry p)
          (match completestatus b with
           | Some c => Some c
           | None => Post.completestatus p
           end)
          (Post.remindertime p)
          (match currentstatus b with
           | Some k => Some k
           | None => Post.currentstatus p
           end).

Definition setContent (editedtask : string) (b : body) (p : Post.row)
  : Post.row :=
  Post.mk (Post.id p) (Post.user_id p) editedtask
          (orKeep (editedtype b) (Post.type p))
          (Post.timeofentry p) (Post.completestatus p)
          (Post.remindertime p) (Post.currentstatus p).

(** The three PATCH handlers differ only in their messages.  With
    [.single()] a missing row is an error, so the 404 branch is reached
    only through a fault-free empty answer, which the store never
    gives. *)
Definition patchStatus (id userId : Z) (b : body) (failure : string)
    (fault : option string) (db : Db.Store) : Db.Store * response :=
  match Db.request fault (updateSingle id userId (setStatus b)) db with
  | (db1, Db.Data updatedTask) => (db1, mkResponse 200 (Task updatedTask))
  | (db1, Db.Error _) => (db1, mkResponse 500 (Failure failure))
  end.

Definition putTasks (id userId : Z) (b : body) (fault : option string)
    (db : Db.Store) : Db.Store * response :=
  match editedtask b with
  | Some e =>
      if negb (truthy (editedtask b))
      then (db, mkResponse 400 (Failure "Task content is required"))
      else
        match Db.request fault
                (updateSingle id userId (setContent e b)) db with
        | (db1, Db.Data updatedTask) =>
            (db1, mkResponse 200 (Task updatedTask))
        | (db1, Db.Error _) =>
            (db1, mkResponse 500 (Failure "Failed to update task"))
        end
  | None => (db, mkResponse 400 (Failure "Task content is required"))
  end.

Definition count (f : Post.row -> bool) (l : list Post.row) : Z :=
  Z.of_nat (List.length (filter f l)).

Definition getReminders (userId : Z) (fault : option string)
    (db : Db.Store) : Db.Store * response :=
  match Db.request fault
          (Db.reading (fun db => filter (owned userId) (Db.post db)))
          db with
  | (db1, Db.Data tasks) =>
      (db1,
       mkResponse 200
         (Reminders
            (Z.of_nat (List.length tasks))
            (count (fun t =>
                      Db.eq_bool (Post.completestatus t) false
                      && Db.eq_bool (Post.currentstatus t) false)
                   tasks)))
  | (db1, Db.Error _) =>
      (db1, mkResponse 500 (Failure "Failed to fetch pending tasks"))
  end.

Definition getReminderspie (userId : Z) (fault : option string)
    (db : Db.Store) : Db.Store * response :=
  match Db.request fault
          (Db.reading
             (fun db => filter (byStatus userId true true) (Db.post db)))
          db with
  | (db1, Db.Data tasks) =>
      let ofType ty := count (fun t => (Post.type t =? ty)%string) tasks in
      (db1,
       mkResponse 200
         (Pie (ofType "Personal") (ofType "Family") (ofType "Work")
              (ofType "Group Activity")))
  | (db1, Db.Error _) =>
      (db1, mkResponse 500 (Failure "Failed to fetch reminders"))
  end.

(** A route once [validateToken] has set [req.userId]. *)
Definition handler (userId : Z) (req : request) (fault : option string)
    (db : Db.Store) : Db.Store * response :=
  match target req with
  | GET_tasks =>
      listTasks userId false "Failed to fetch pending tasks" fault db
  | GET_taskschange =>
      listTasks userId true "Failed to fetch completed tasks" fault db
  | POST_tasks => postTasks userId (payload req) fault db
  | PATCH_tasks id =>
      patchStatus id userId (payload req)
        "Failed to update task status" fault db
  | PATCH_dtasks id =>
      patchStatus id userId (payload req)
        "Failed to update task status" fault db
  | PUT_tasks id => putTasks id userId (payload req) fault db
  | PATCH_taskschange id =>
      patchStatus id userId (payload req) "Failed to undo task" fault db
  | GET_reminders => getReminders userId fault db
  | GET_reminderspie => getReminderspie userId fault db
  end.

(** [app.<method>(path, validateToken, handler)]. *)
Definition serve (req : request) (fault : option string) (db : Db.Store)
  : Db.Store * response :=
  match validateToken req with
  | inl refusal => (db, refusal)
  | inr userId => handler userId req fault db
  end.

End Routes.

Arguments owned userId p : simpl never.

End IndexHttp.

(* ------------------------------------------------------------------ *)
(** ** The window as the specification words it                         *)
(* ------------------------------------------------------------------ *)

Module Spec.

Definition digit (c : ascii) : option Z :=
  let n := Z.of_nat (nat_of_ascii c) in
  if (48 <=? n) && (n <=? 57) then Some (n - 48) else None.

Fixpoint numberFrom (acc : Z) (s : string) : option Z :=
  match s with
  | EmptyString => Some acc
  | String c s' =>
      match digit c with
      | Some d => numberFrom (10 * acc + d) s'
      | None => None
      end
  end.

Definition number (s : string) : option Z :=
  match s with
  | EmptyString => None
  | _ => numberFrom 0 s
  end.

Definition between (lo x hi : Z) : bool := (lo <=? x) && (x <=? hi).

(** Follows the specification's words, not the code: the reminder text
    read under the fixed format 'dd/MM/yyyy, hh:mm:ss a' as an instant
    of the scheduler's zone. *)
Definition parseReminder (s : string) : option Luxon.DateTime :=
  if negb (Nat.eqb (String.length s) 23) then None
  else if negb ((substring 2 1 s =? "/") && (substring 5 1 s =? "/")
                && (substring 10 2 s =? ", ") && (substring 14 1 s =? ":")
                && (substring 17 1 s =? ":")
                && (substring 20 1 s =? " "))%string then None
  else
    match number (substring 0 2 s), number (substring 3 2 s),
          number (substring 6 4 s), number (substring 12 2 s),
          number (substring 15 2 s), number (substring 18 2 s) with
    | Some d, Some mo, Some y, Some h, Some mi, Some se =>
        let a := substring 21 2 s in
        if between 1 d 31 && between 1 mo 12 && between 1 h 12
           && between 0 mi 59 && between 0 se 59
           && ((a =? "AM") || (a =? "PM"))%string
        then Some (Luxon.fromFields
                     (Luxon.mkFields y mo d
                        (h mod 12 + (if (a =? "PM")%string then 12 else 0))
                        mi se 0))
        else None
    | _, _, _, _, _, _ => None
    end.

(** Follows the specification's words: the window [now+14m30s, now+15m30s],
    both bounds included. *)
Definition inWindow (now ts : Luxon.DateTime) : bool :=
  (Luxon.plus now 14 30 <=? ts) && (ts <=? Luxon.plus now 15 30).

(** Follows the specification's words: a due task has a false completion
    flag and a reminder instant inside the window. *)
Definition due (now : Luxon.DateTime) (p : Post.row) : bool :=
  Db.eq_bool (Post.completestatus p) false
  && match parseReminder (Post.remindertime p) with
     | Some ts => inWindow now ts
     | None => false
     end.

Definition dueTasks (now : Luxon.DateTime) (db : Db.Store) : list Post.row :=
  filter (due now) (Db.post db).

End Spec.

(* ------------------------------------------------------------------ *)
(** ** Sample data                                                      *)
(* ------------------------------------------------------------------ *)

Module Sample.

(** 1 December 2026, 10:00:00.000 in Asia/Kolkata. *)
Definition tenAM : Luxon.DateTime := 1796099400000.

(** 1 December 2026, 12:45:00.000 (PM) in Asia/Kolkata. *)
Definition quarterToOne : Luxon.DateTime := 1796109300000.

Definition asha : Logindata.row :=
  Logindata.mk 1 "asha@example.org" "$2a$10$hash" "Asha" "Rao".
Definition ravi : Logindata.row :=
  Logindata.mk 2 "ravi@example.org" "$2a$10$hash" "Ravi" "Iyer".

Definition pending (id user_id : Z) (task type remindertime : string)
  : Post.row :=
  Post.mk id user_id task type (Some "01/12/2026, 09:00:00 AM")
          (Some false) remindertime (Some false).

Definition gym : Post.row :=
  pending 11 1 "Gym" "Personal" "01/12/2026, 10:14:45 AM".
Definition bank : Post.row :=
  pending 12 2 "Call bank" "Work" "01/12/2026, 10:15:00 AM".
Definition late : Post.row :=
  pending 13 1 "Review" "Work" "01/12/2026, 10:16:00 AM".
Definition done : Post.row :=
  Post.mk 14 1 "Shopping" "Family" None (Some true)
          "01/12/2026, 10:14:45 AM" (Some false).
(** Twelve hours after the window of [tenAM]. *)
Definition evening : Post.row :=
  pending 15 1 "Dinner" "Family" "01/12/2026, 10:15:00 PM".
(** Inside the window of [quarterToOne], which runs from 12:59:30 PM to
    01:00:30 PM. *)
Definition oneOClock : Post.row :=
  pending 16 1 "Lunch" "Personal" "01/12/2026, 01:00:00 PM".
(** A task whose [user_id] matches no account. *)
Definition orphan : Post.row :=
  pending 17 99 "Orphan" "Personal" "01/12/2026, 10:15:00 AM".
(** On the upper bound of the window of [tenAM] and on the lower bound of
    the window one minute later. *)
Definition onTheEdge : Post.row :=
  pending 18 2 "Standup" "Work" "01/12/2026, 10:15:30 AM".

Definition users : list Logindata.row := [asha; ravi].

Definition SMTP_EMAIL : string := "noreply@example.org".

(** A transport that accepts everything. *)
Definition accepting (s : unit) (m : Js.MailOptions) : unit * option string :=
  (s, None).

(** A transport that refuses the messages addressed to one recipient. *)
Definition refusing (addr : string) (s : unit) (m : Js.MailOptions)
  : unit * option string :=
  if (Js.to m =? addr)%string then (s, Some "550 mailbox unavailable")
  else (s, None).

(** A token check that knows two sessions. *)
Definition verify (token : string) : option (Z * string) :=
  if (token =? "token-asha")%string then Some (1, "asha@example.org")
  else if (token =? "token-ravi")%string then Some (2, "ravi@example.org")
  else None.

(** An [in] operator that accepts every stored text. *)
Definition anyText (stored operand : string) : bool := true.

Definition timeofentry_le (a b : option string) : bool :=
  match a, b with
  | Some x, Some y => String.leb x y
  | None, _ => true
  | Some _, None => false
  end.

End Sample.

(* ------------------------------------------------------------------ *)
(** ** src/index.js: /register, /login and /usercount                   *)
(* ------------------------------------------------------------------ *)

Module IndexAuth.

(** The fields of [req.body] the two account routes read. *)
Record body : Type := mkBody
  { email : option string; password : option string;
    firstname : option string; lastname : option string }.

Module User.
(** The columns [id, email, firstname, lastname] a registration answers
    with. *)
Record t : Type := mk
  { id : Z; email : string; firstname : string; lastname : string }.
End User.

Inductive json : Type :=
| Registered (user : User.t)
| LoggedIn (token firstname lastname : string)
| Usercount (usercount : Z)
| Failure (error : string).

Record response : Type := mkResponse { status : Z; sent : json }.

(** [.from('logindata').select('*').eq('email', email)]. *)
Definition byEmail (e : string) (db : Db.Store) : list Logindata.row :=
  filter (fun l => (Logindata.email l =? e)%string) (Db.logindata db).

(** The identifier the store gives to a new account. *)
Definition nextId (db : Db.Store) : Z :=
  1 + fold_right Z.max 0 (map Logindata.id (Db.logindata db)).

(** [.insert([{...}]).select('id, email, firstname, lastname').single()]. *)
Definition insertUser (mk : Z -> Logindata.row) (db : Db.Store)
  : Db.Store * Db.response User.t :=
  let l := mk (nextId db) in
  (Db.mkStore (Db.logindata db ++ [l])%list (Db.post db),
   Db.Data (User.mk (Logindata.id l) (Logindata.email l)
                    (Logindata.firstname l) (Logindata.lastname l))).

(** [.select('*').eq('email', email).single()]: an error unless exactly one
    row carries the email. *)
Definition selectSingle (e : string) (db : Db.Store)
  : Db.Store * Db.response Logindata.row :=
  match byEmail e db with
  | [user] => (db, Db.Data user)
  | _ => (db, Db.Error "JSON object requested, multiple (or no) rows returned")
  end.

Section Auth.

(** [bcrypt.hash(password, 10)] with the salt it draws, and
    [bcrypt.compare(password, hash)]. *)
Variable hash : string -> string -> string.
Variable compare : string -> string -> bool.

(** [jwt.sign({ userId, email }, jwtSecretKey, { expiresIn: "1h" })]. *)
Variable sign : Z -> string -> string.

(** POST /register.  The two requests to the store fail independently. *)
Definition register (salt : string) (b : body)
    (checkFault insertFault : option string) (db : Db.Store)
  : Db.Store * response :=
  match email b, password b, firstname b, lastname b with
  | Some e, Some pw, Some fn, Some ln =>
      if negb (Http.truthy (email b)) || negb (Http.truthy (password b))
         || negb (Http.truthy (firstname b)) || negb (Http.truthy (lastname b))
      then (db, mkResponse 400
                  (Failure
                     "Email, password, firstname, and lastname are required"))
      else
        match Db.request checkFault (Db.reading (byEmail e)) db with
        | (db1, Db.Error _) =>
            (db1, mkResponse 500 (Failure "Failed to register user"))
        | (db1, Db.Data existingUser) =>
            if (0 <? List.length existingUser)%nat
            then (db1, mkResponse 409 (Failure "Email already registered"))
            else
              match Db.request insertFault
                      (insertUser
                         (fun i => Logindata.mk i e (hash salt pw) fn ln))
                      db1 with
              | (db2, Db.Data newUser) =>
                  (db2, mkResponse 201 (Registered newUser))
              | (db2, Db.Error _) =>
                  (db2, mkResponse 500 (Failure "Failed to register user"))
              end
        end
  | _, _, _, _ =>
      (db, mkResponse 400
             (Failure "Email, password, firstname, and lastname are required"))
  end.

(** POST /login.  A failed lookup is answered like an unknown email. *)
Definition login (b : body) (fault : option string) (db : Db.Store)
  : Db.Store * response :=
  match email b, password b with
  | Some e, Some pw =>
      if negb (Http.truthy (email b)) || negb (Http.truthy (password b))
      then (db, mkResponse 400 (Failure "Email and password are required"))
      else
        match Db.request fault (selectSingle e) db with
        | (db1, Db.Error _) => (db1, mkResponse 404 (Failure "User not found"))
        | (db1, Db.Data user) =>
            if negb (compare pw (Logindata.password user))
            then (db1, mkResponse 401 (Failure "Incorrect password"))
            else (db1,
                  mkResponse 200
                    (LoggedIn (sign (Logindata.id user) (Logindata.email user))
                              (Logindata.firstname user)
                              (Logindata.lastname user)))
        end
  | _, _ => (db, mkResponse 400 (Failure "Email and password are required"))
  end.

End Auth.

(** GET /usercount; the route has no [validateToken]. *)
Definition usercount (fault : option string) (db : Db.Store)
  : Db.Store * response :=
  match Db.request fault (Db.reading Db.logindata) db with
  | (db1, Db.Data users) =>
      (db1, mkResponse 200 (Usercount (Z.of_nat (List.length users))))
  | (db1, Db.Error _) =>
      (db1, mkResponse 500 (Failure "Failed to fetch user count"))
  end.

End IndexAuth.

(* ------------------------------------------------------------------ *)
(** ** The [pg] revision: /register and /login                          *)
(* ------------------------------------------------------------------ *)

Module Part000Auth.

Import IndexAuth.

(** [INSERT INTO logindata (...) VALUES (...) RETURNING id, email,
    firstname, lastname]. *)
Definition insertReturning (mk : Z -> Logindata.row) (db : Db.Store)
  : Db.Store * Db.response (list User.t) :=
  match insertUser mk db with
  | (db1, Db.Data user) => (db1, Db.Data [user])
  | (db1, Db.Error m) => (db1, Db.Error m)
  end.

Section Auth.

Variable hash : string -> string -> string.
Variable compare : string -> string -> bool.
Variable sign : Z -> string -> string.

(** POST /register: [SELECT * FROM logindata WHERE email = $1], then the
    insert; a rejected query ends in the [catch].  The insert of one row
    returns one row, so the branch for an empty [result.rows] is never
    taken. *)
Definition register (salt : string) (b : body)
    (checkFault insertFault : option string) (db : Db.Store)
  : Db.Store * response :=
  match email b, password b, firstname b, lastname b with
  | Some e, Some pw, Some fn, Some ln =>
      if negb (Http.truthy (email b)) || negb (Http.truthy (password b))
         || negb (Http.truthy (firstname b)) || negb (Http.truthy (lastname b))
      then (db, mkResponse 400
                  (Failure
                     "Email, password, firstname, and lastname are required"))
      else
        match Db.request checkFault (Db.reading (byEmail e)) db with
        | (db1, Db.Error _) =>
            (db1, mkResponse 500 (Failure "Failed to register user"))
        | (db1, Db.Data rows) =>
            if (0 <? List.length rows)%nat
            then (db1, mkResponse 409 (Failure "Email already registered"))
            else
              match Db.request insertFault
                      (insertReturning
                         (fun i => Logindata.mk i e (hash salt pw) fn ln))
                      db1 with
              | (db2, Db.Data (user :: _)) =>
                  (db2, mkResponse 201 (Registered user))
              | (db2, Db.Data []) =>
                  (db2, mkResponse 500 (Failure "Failed to register user"))
              | (db2, Db.Error _) =>
                  (db2, mkResponse 500 (Failure "Failed to register user"))
              end
        end
  | _, _, _, _ =>
      (db, mkResponse 400
             (Failure "Email, password, firstname, and lastname are required"))
  end.

(** POST /login: the first row with the email is the user; a rejected
    query is answered 500. *)
Definition login (b : body) (fault : option string) (db : Db.Store)
  : Db.Store * response :=
  match email b, password b with
  | Some e, Some pw =>
      if negb (Http.truthy (email b)) || negb (Http.truthy (password b))
      then (db, mkResponse 400 (Failure "Email and password are required"))
      else
        match Db.request fault (Db.reading (byEmail e)) db with
        | (db1, Db.Error _) => (db1, mkResponse 500 (Failure "Failed to log in"))
        | (db1, Db.Data []) => (db1, mkResponse 404 (Failure "User not found"))
        | (db1, Db.Data (user :: _)) =>
            if negb (compare pw (Logindata.password user))
            then (db1, mkResponse 401 (Failure "Incorrect password"))
            else (db1,
                  mkResponse 200
                    (LoggedIn (sign (Logindata.id user) (Logindata.email user))
                              (Logindata.firstname user)
                              (Logindata.lastname user)))
        end
  | _, _ => (db, mkResponse 400 (Failure "Email and password are required"))
  end.

End Auth.

End Part000Auth.

(** Orderings used to state what the listings look like. *)
Module Listing.

(** [a] may come before [b] in a listing ordered by [timeofentry],
    descending. *)
Definition newestFirst (le : option string -> option string -> bool)
    (a b : Post.row) : Prop :=
  le (Post.timeofentry b) (Post.timeofentry a) = true.


End Listing.

(* ------------------------------------------------------------------ *)
(** ** The [pg] revision: the task routes                               *)
(* ------------------------------------------------------------------ *)

Module Part000Http.

Import Http.

(** The routes of the revision that are embedded.  PUT /tasks/:id is left
    out: it writes [type = NULL] when [editedtype] is missing, which
    [Post.row] does not represent. *)
Inductive route : Type :=
| GET_tasks
| GET_taskschange
| POST_tasks
| PATCH_tasks (id : Z)
| PATCH_dtasks (id : Z)
| PATCH_taskschange (id : Z)
| GET_reminders
| GET_reminderspie.

Section Routes.

Variable timeofentry_le : option string -> option string -> bool.

(** [SELECT * FROM post WHERE user_id = $1 AND completestatus = c AND
    currentstatus = FALSE ORDER BY timeofentry DESC]. *)
Definition listTasks (userId : Z) (c : bool) (failure : string)
    (fault : option string) (db : Db.Store) : Db.Store * response :=
  match Db.request fault
          (Db.reading
             (fun db =>
                IndexHttp.orderDesc timeofentry_le
                  (filter (IndexHttp.byStatus userId c false) (Db.post db))))
          db with
  | (db1, Db.Data rows) => (db1, mkResponse 200 (Tasks rows))
  | (db1, Db.Error _) => (db1, mkResponse 500 (Failure failure))
  end.

(** [INSERT INTO post (...) VALUES ($1, ..., $7) RETURNING *]; a parameter
    that is [undefined] is sent as NULL. *)
Definition postTasks (userId : Z) (b : body) (fault : option string)
    (db : Db.Store) : Db.Store * response :=
  match task b, type b, remindertime b with
  | Some t, Some ty, Some rt =>
      if negb (truthy (task b)) || negb (truthy (type b))
         || negb (truthy (remindertime b))
      then (db, mkResponse 400
                  (Failure "Task, type, and remindertime are required"))
      else
        match Db.request fault
                (IndexHttp.insertPost
                   (fun i => Post.mk i userId t ty (timeofentry b)
                                     (completestatus b) rt (currentstatus b)))
                db with
        | (db1, Db.Data row) => (db1, mkResponse 201 (Task row))
        | (db1, Db.Error _) =>
            (db1, mkResponse 500 (Failure "Failed to add task"))
        end
  | _, _, _ =>
      (db, mkResponse 400
             (Failure "Task, type, and remindertime are required"))
  end.

(** [UPDATE post SET completestatus = $1, currentstatus = $2 WHERE id = $3
    AND user_id = $4 RETURNING *]: every matching row is written, a missing
    flag is written as NULL. *)
Definition setStatus (b : body) (p : Post.row) : Post.row :=
  Post.mk (Post.id p) (Post.user_id p) (Post.task p) (Post.type p)
          (Post.timeofentry p) (completestatus b) (Post.remindertime p)
          (currentstatus b).

Definition updateReturning (id userId : Z) (set : Post.row -> Post.row)
    (db : Db.Store) : Db.Store * Db.response (list Post.row) :=
  let hit p := (Post.id p =? id) && IndexHttp.owned userId p in
  (Db.mkStore (Db.logindata db)
     (map (fun q => if hit q then set q else q) (Db.post db)),
   Db.Data (map set (filter hit (Db.post db)))).

Definition patchStatus (id userId : Z) (b : body)
    (missing failure : string) (fault : option string) (db : Db.Store)
  : Db.Store * response :=
  match Db.request fault (updateReturning id userId (setStatus b)) db with
  | (db1, Db.Data []) => (db1, mkResponse 404 (Failure missing))
  | (db1, Db.Data (row :: _)) => (db1, mkResponse 200 (Task row))
  | (db1, Db.Error _) => (db1, mkResponse 500 (Failure failure))
  end.

(** [SELECT COUNT( * ) AS count, COUNT( * ) FILTER (WHERE completestatus =
    false AND currentstatus = false) AS pendingcount FROM post WHERE
    user_id = $1]. *)
Definition getReminders (userId : Z) (fault : option string)
    (db : Db.Store) : Db.Store * response :=
  match Db.request fault
          (Db.reading
             (fun db =>
                let mine := filter (IndexHttp.owned userId) (Db.post db) in
                (Z.of_nat (List.length mine),
                 IndexHttp.count
                   (fun t => Db.eq_bool (Post.completestatus t) false
                             && Db.eq_bool (Post.currentstatus t) false)
                   mine)))
          db with
  | (db1, Db.Data (count, pendingcount)) =>
      (db1, mkResponse 200 (Reminders count pendingcount))
  | (db1, Db.Error _) =>
      (db1, mkResponse 500 (Failure "Failed to fetch pending tasks"))
  end.

(** The four [COUNT( * ) FILTER (WHERE completestatus AND currentstatus AND
    type = ...)] over the rows of the user. *)
Definition getReminderspie (userId : Z) (fault : option string)
    (db : Db.Store) : Db.Store * response :=
  match Db.request fault
          (Db.reading
             (fun db =>
                let mine := filter (IndexHttp.owned userId) (Db.post db) in
                let ofType ty :=
                  IndexHttp.count
                    (fun t => Db.eq_bool (Post.completestatus t) true
                              && Db.eq_bool (Post.currentstatus t) true
                              && (Post.type t =? ty)%string)
                    mine in
                (ofType "Personal", ofType "Work", ofType "Family",
                 ofType "Group Activity")))
          db with
  | (db1, Db.Data (personalcount, workcount, familycount, groupactivitycount)) =>
      (db1,
       mkResponse 200
         (Pie personalcount familycount workcount groupactivitycount))
  | (db1, Db.Error _) =>
      (db1, mkResponse 500 (Failure "Failed to fetch reminders"))
  end.

Definition handler (userId : Z) (target : route) (b : body)
    (fault : option string) (db : Db.Store) : Db.Store * response :=
  match target with
  | GET_tasks =>
      listTasks userId false "Failed to fetch pending tasks" fault db
  | GET_taskschange =>
      listTasks userId true "Failed to fetch completed tasks" fault db
  | POST_tasks => postTasks userId b fault db
  | PATCH_tasks id =>
      patchStatus id userId b "Task not found or unauthorized"
        "Failed to update task status" fault db
  | PATCH_dtasks id =>
      patchStatus id userId b "Task not found or unauthorized"
        "Failed to update task status" fault db
  | PATCH_taskschange id =>
      patchStatus id userId b "Task not found or unauthorized"
        "Failed to undo task" fault db
  | GET_reminders => getReminders userId fault db
  | GET_reminderspie => getReminderspie userId fault db
  end.

End Routes.

End Part000Http.

(* ------------------------------------------------------------------ *)
(** ** Sample data for the account routes                               *)
(* ------------------------------------------------------------------ *)

Module SampleAuth.

(** A stand-in for bcrypt: the salt, a dollar sign, the password. *)
Definition hash (salt password : string) : string :=
  salt ++ "$" ++ password.

Definition compare (password hashed : string) : bool :=
  match index 0 "$" hashed with
  | Some n =>
      (substring (S n) (String.length hashed - S n) hashed =? password)%string
  | None => false
  end.

(** Tokens that [Sample.verify] knows. *)
Definition sign (userId : Z) (email : string) : string :=
  if userId =? 1 then "token-asha" else "token-ravi".


Definition asha : Logindata.row :=
  Logindata.mk 1 "asha@example.org" (hash "salt" "pw-asha") "Asha" "Rao".

Definition db : Db.Store := Db.mkStore [asha; Sample.ravi] [Sample.gym].

End SampleAuth.

(* ================================================================== *)
(** * Properties                                                        *)
(* ================================================================== *)

(** ** [try/catch] and the event projections *)

Lemma tryCatch_rejected {Smtp : Type} (b : block Smtp) h :
  rejected (tryCatch b h) = None.
Proof. destruct b as [[[db s] evs] [e|]]; reflexivity. Qed.

Lemma tryCatch_store {Smtp : Type} db (s : Smtp) evs thrown h :
  store (tryCatch (db, s, evs, thrown) h) = db.
Proof. destruct thrown; reflexivity. Qed.

Lemma tryCatch_smtp {Smtp : Type} db (s : Smtp) evs thrown h :
  smtp (tryCatch (db, s, evs, thrown) h) = s.
Proof. destruct thrown; reflexivity. Qed.



Lemma dispatches_send m o evs :
  Js.dispatches (Js.SendMail m o :: evs) = m :: Js.dispatches evs.
Proof. reflexivity. Qed.


(** ** src/index.js: the query *)

Lemma eq_bool_false_iff (c : option bool) :
  Db.eq_bool c false = true <-> c = Some false.
Proof.
  destruct c as [[|]|]; simpl; split; intros H; try discriminate; reflexivity.
Qed.

Lemma Index_due_iff lower upper p :
  Index.due lower upper p = true <->
  Post.completestatus p = Some false
  /\ String.leb lower (Post.remindertime p) = true
  /\ String.leb (Post.remindertime p) upper = true.
Proof.
  unfold Index.due. rewrite !andb_true_iff, eq_bool_false_iff. tauto.
Qed.

(** What src/index.js selects: the pending tasks whose reminder text lies,
    as text, between the two formatted bounds. *)
Lemma Index_dueTasks_iff db lower upper p :
  In p (Index.dueTasks db lower upper) <->
  In p (Db.post db)
  /\ Post.completestatus p = Some false
  /\ String.leb lower (Post.remindertime p) = true
  /\ String.leb (Post.remindertime p) upper = true.
Proof.
  unfold Index.dueTasks. rewrite filter_In, Index_due_iff. tauto.
Qed.

(** The text order is transitive. *)
Lemma String_leb_trans a b c :
  String.leb a b = true -> String.leb b c = true -> String.leb a c = true.
Proof.
  unfold String.leb. revert b c.
  induction a as [|x a IH]; intros [|y b] [|z c]; simpl; try easy.
  unfold Ascii.compare.
  destruct (N.compare_spec (N_of_ascii x) (N_of_ascii y)) as [Exy|Lxy|Gxy];
    destruct (N.compare_spec (N_of_ascii y) (N_of_ascii z)) as [Eyz|Lyz|Gyz];
    try easy.
  - rewrite Exy, Eyz, N.compare_refl. apply IH.
  - intros _ _. rewrite Exy. now apply N.compare_lt_iff in Lyz; rewrite Lyz.
  - intros _ _. rewrite <- Eyz. now apply N.compare_lt_iff in Lxy; rewrite Lxy.
  - intros _ _.
    assert (L : (N_of_ascii x < N_of_ascii z)%N) by lia.
    now apply N.compare_lt_iff in L; rewrite L.
Qed.

(** src/index.js: when the lower bound is, as text, above the upper bound,
    no task is selected. *)
Lemma Index_inverted_bounds_select_nothing db lower upper :
  String.leb lower upper = false ->
  Index.dueTasks db lower upper = [].
Proof.
  intros H. unfold Index.dueTasks.
  induction (Db.post db) as [|p l IH]; simpl; [reflexivity|].
  destruct (Index.due lower upper p) eqn:E; [|exact IH].
  apply Index_due_iff in E. destruct E as (_ & H1 & H2).
  rewrite (String_leb_trans _ _ _ H1 H2) in H. discriminate.
Qed.

(** That happens whenever the window crosses 12:59:59 (the hour text goes
    from '12' to '01') or the end of a month. *)
Example Index_inverted_bounds :
  String.leb (Index.reminderTimeLower Sample.quarterToOne)
             (Index.reminderTimeUpper Sample.quarterToOne) = false
  /\ Index.reminderTimeLower 1798740900000 = "31/12/2026, 11:59:30 PM"
  /\ Index.reminderTimeUpper 1798740900000 = "01/01/2027, 12:00:30 AM"
  /\ String.leb (Index.reminderTimeLower 1798740900000)
                (Index.reminderTimeUpper 1798740900000) = false.
Proof. vm_compute. repeat split. Qed.

(** The first scenario of the specification: at 10:00:00, a pending task
    at 10:14:45 is selected, one at 10:16:00 is not, a completed one at
    10:14:45 is not. *)
Example Index_scenario :
  Index.dueTasks (Db.mkStore Sample.users [Sample.gym; Sample.late; Sample.done])
    (Index.reminderTimeLower Sample.tenAM)
    (Index.reminderTimeUpper Sample.tenAM)
  = [Sample.gym].
Proof. vm_compute. reflexivity. Qed.

(** ** The pg revision: the query *)

Section Part000Query.

Variable TO_TIMESTAMP : string -> option Z.

(** When the statement does not raise, its rows are the SELECT list of
    the joined rows the WHERE clause accepts, in join order. *)
Lemma Part000_where_rows lo hi pairs rows :
  Part000.where_ TO_TIMESTAMP lo hi pairs = Some rows ->
  map (Part000.selectList TO_TIMESTAMP) (filter (Part000.chosen TO_TIMESTAMP lo hi) pairs)
  = map Some rows.
Proof.
  revert rows. induction pairs as [|pl rest IH]; simpl; intros rows H.
  - now inversion H.
  - unfold Part000.chosen at 1.
    destruct (Part000.whereClause TO_TIMESTAMP lo hi (fst pl)) as [[|]|];
      try discriminate.
    + destruct (Part000.selectList TO_TIMESTAMP pl) as [r|] eqn:Er;
        try discriminate.
      destruct (Part000.where_ TO_TIMESTAMP lo hi rest) as [rows'|];
        try discriminate.
      inversion H; subst. simpl. rewrite Er. f_equal. now apply IH.
    + now apply IH.
Qed.

(** The WHERE clause of the pg revision: a false completion flag and a
    converted reminder between the converted bounds, both included. *)
Lemma Part000_whereClause_iff lo hi p :
  Part000.whereClause TO_TIMESTAMP lo hi p = Some true <->
  Post.completestatus p = Some false
  /\ exists ts, TO_TIMESTAMP (Post.remindertime p) = Some ts
                /\ lo <= ts <= hi.
Proof.
  unfold Part000.whereClause.
  destruct (Db.eq_bool (Post.completestatus p) false) eqn:E.
  - apply eq_bool_false_iff in E.
    destruct (TO_TIMESTAMP (Post.remindertime p)) as [ts|]; simpl.
    + split.
      * intros H. inversion H as [H'].
        apply andb_true_iff in H'. destruct H' as [H1 H2].
        apply Z.leb_le in H1, H2. split; [assumption|].
        exists ts. split; [reflexivity|lia].
      * intros [_ [ts' [Hts [H1 H2]]]]. inversion Hts; subst.
        f_equal. apply andb_true_iff. split; now apply Z.leb_le.
    + split; [discriminate|]. intros [_ [ts [Hts _]]]. discriminate.
  - split; [discriminate|]. intros [H _].
    apply eq_bool_false_iff in H. congruence.
Qed.

End Part000Query.

(** The format and the reading of the specification agree on the sample
    instants, on a leap day and across midnight. *)
Example format_then_parse :
  Luxon.toFormat_reminder Sample.tenAM = "01/12/2026, 10:00:00 AM"
  /\ Spec.parseReminder (Luxon.toFormat_reminder Sample.tenAM)
     = Some Sample.tenAM
  /\ Luxon.toFormat_reminder (Luxon.plus Sample.quarterToOne 15 30)
     = "01/12/2026, 01:00:30 PM"
  /\ Luxon.toFormat_reminder 951762600999 = "29/02/2000, 12:00:00 AM"
  /\ Spec.parseReminder "29/02/2000, 12:00:00 AM" = Some 951762600000
  /\ Luxon.toFormat_reminder (Luxon.plus 1798741800000 15 30)
     = "01/01/2027, 12:15:30 AM".
Proof. vm_compute. repeat split. Qed.

(** C1. The code under src/index.js does not read the reminder text as an
    instant: it asks the store for texts between the two formatted bounds.
    At 10:00:00 AM the task set for 10:15:00 PM is selected although it is
    twelve hours outside the window; at 12:45:00 PM the window runs from
    '12:59:30 PM' to '01:00:30 PM', the lower text is above the upper one,
    and the task set for 01:00:00 PM is not selected although it is inside
    the window. *)
Theorem C1_index_selects_by_text_order :
  let db := Db.mkStore Sample.users
              [Sample.gym; Sample.evening; Sample.late; Sample.oneOClock] in
  Index.dueTasks db (Index.reminderTimeLower Sample.tenAM)
                    (Index.reminderTimeUpper Sample.tenAM)
  = [Sample.gym; Sample.evening]
  /\ Spec.dueTasks Sample.tenAM db = [Sample.gym]
  /\ Index.dueTasks db (Index.reminderTimeLower Sample.quarterToOne)
                       (Index.reminderTimeUpper Sample.quarterToOne)
     = []
  /\ Spec.dueTasks Sample.quarterToOne db = [Sample.oneOClock].
Proof. vm_compute. repeat split. Qed.

(** ** The loops *)

Section Loops.

Variable SMTP_EMAIL : string.
Variable Smtp : Type.
Variable sendMail : Smtp -> Js.MailOptions -> Smtp * option string.

(** src/index.js: a rejected send is the last thing the loop does. *)
Lemma Index_forOf_stops_at_rejection r m rest s s1 reason :
  Index.mailOptions SMTP_EMAIL r = inr m ->
  sendMail s m = (s1, Some reason) ->
  Index.forOf SMTP_EMAIL sendMail (r :: rest) s
  = (s1, [Js.SendMail m (Some reason)], Some (Js.MailError reason)).
Proof. intros Hm Hs. simpl. now rewrite Hm, Hs. Qed.

(** src/index.js: a row without owner ends the loop before any send. *)
Lemma Index_forOf_stops_at_null r rest s :
  Index.logindata r = None ->
  exists e, Index.forOf SMTP_EMAIL sendMail (r :: rest) s = (s, [], Some e).
Proof.
  intros H. simpl. unfold Index.mailOptions. rewrite H. eauto.
Qed.

(** src/index.js: the loop writes nothing to the console. *)
Lemma Index_forOf_silent tasks s :
  Js.logs (snd (fst (Index.forOf SMTP_EMAIL sendMail tasks s))) = [].
Proof.
  revert s. induction tasks as [|r rest IH]; intros s; simpl; [reflexivity|].
  destruct (Index.mailOptions SMTP_EMAIL r) as [e|m]; [reflexivity|].
  destruct (sendMail s m) as [s1 [reason|]]; [reflexivity|].
  specialize (IH s1).
  destruct (Index.forOf SMTP_EMAIL sendMail rest s1) as [[s2 evs] thrown].
  exact IH.
Qed.

Lemma Index_mails_cons r tasks :
  Index.mails SMTP_EMAIL (r :: tasks)
  = match Index.mailOptions SMTP_EMAIL r with
    | inr m => m :: Index.mails SMTP_EMAIL tasks
    | inl _ => Index.mails SMTP_EMAIL tasks
    end.
Proof.
  unfold Index.mails. simpl.
  now destruct (Index.mailOptions SMTP_EMAIL r).
Qed.

Lemma Index_resolved_mail r :
  Index.resolved r -> exists m, Index.mailOptions SMTP_EMAIL r = inr m.
Proof.
  unfold Index.resolved, Index.mailOptions.
  destruct (Index.logindata r); [eauto|congruence].
Qed.

Lemma Part001_mails_cons r tasks :
  Part001.mails SMTP_EMAIL (r :: tasks)
  = match Part001.mailOptions SMTP_EMAIL r with
    | inr m => m :: Part001.mails SMTP_EMAIL tasks
    | inl _ => Part001.mails SMTP_EMAIL tasks
    end.
Proof.
  unfold Part001.mails. simpl.
  now destruct (Part001.mailOptions SMTP_EMAIL r).
Qed.

Lemma Part001_resolved_mail r :
  Index.resolved r -> exists m, Part001.mailOptions SMTP_EMAIL r = inr m.
Proof.
  unfold Index.resolved, Part001.mailOptions.
  destruct (Index.logindata r); [eauto|congruence].
Qed.

(** src/index.js: what is dispatched is a prefix of the rows' messages. *)
Lemma Index_forOf_prefix tasks s :
  exists rest,
    Index.mails SMTP_EMAIL tasks
    = (Js.dispatches (snd (fst (Index.forOf SMTP_EMAIL sendMail tasks s)))
       ++ rest)%list.
Proof.
  revert s. induction tasks as [|r tasks IH]; intros s.
  - now exists [].
  - rewrite Index_mails_cons. simpl.
    destruct (Index.mailOptions SMTP_EMAIL r) as [e|m]; simpl.
    + eexists. reflexivity.
    + destruct (sendMail s m) as [s1 [reason|]]; simpl.
      * eexists. reflexivity.
      * destruct (IH s1) as [rest Hrest].
        destruct (Index.forOf SMTP_EMAIL sendMail tasks s1)
          as [[s2 evs] thrown].
        simpl in *. exists rest. unfold Js.dispatches in *. simpl.
        f_equal. exact Hrest.
Qed.

(** src/index.js: with every owner resolved and every send accepted, each
    row is dispatched, in order. *)
Lemma Index_forOf_all tasks s :
  Forall Index.resolved tasks ->
  (forall s' m, snd (sendMail s' m) = None) ->
  let '(_, evs, thrown) := Index.forOf SMTP_EMAIL sendMail tasks s in
  Js.dispatches evs = Index.mails SMTP_EMAIL tasks
  /\ Js.deliveries evs = Index.mails SMTP_EMAIL tasks
  /\ thrown = None.
Proof.
  intros Hres Hacc. revert s.
  induction Hres as [|r tasks Hr Hres IH]; intros s.
  - simpl. repeat split.
  - destruct (Index_resolved_mail r Hr) as [m Hm].
    rewrite Index_mails_cons. simpl. rewrite Hm.
    pose proof (Hacc s m) as Hs. destruct (sendMail s m) as [s1 o].
    simpl in Hs. subst o. specialize (IH s1).
    destruct (Index.forOf SMTP_EMAIL sendMail tasks s1) as [[s2 evs] thrown].
    destruct IH as (H1 & H2 & H3).
    unfold Js.dispatches, Js.deliveries in *. simpl.
    rewrite H1, H2. repeat split; try reflexivity. exact H3.
Qed.

(** The guarded revision: with every owner resolved, each row is
    dispatched, in order, whatever the transport answers; nothing is
    thrown. *)
Lemma Part001_forOf_all now tasks s :
  Forall Index.resolved tasks ->
  let '(_, evs, thrown) := Part001.forOf SMTP_EMAIL sendMail now tasks s in
  Js.dispatches evs = Part001.mails SMTP_EMAIL tasks /\ thrown = None.
Proof.
  intros Hres. revert s.
  induction Hres as [|r tasks Hr Hres IH]; intros s.
  - simpl. split; reflexivity.
  - destruct (Part001_resolved_mail r Hr) as [m Hm].
    rewrite Part001_mails_cons. simpl. rewrite Hm.
    destruct (sendMail s m) as [s1 o].
    specialize (IH s1).
    destruct (Part001.forOf SMTP_EMAIL sendMail now tasks s1)
      as [[s2 evs] thrown].
    destruct IH as (H1 & H2).
    destruct o as [reason|]; unfold Js.dispatches in *; simpl;
      rewrite H1; split; try reflexivity; exact H2.
Qed.

(** The guarded revision: every rejected send leaves a console line. *)
Lemma Part001_forOf_logs_rejections now tasks s m reason :
  In (Js.SendMail m (Some reason))
     (snd (fst (Part001.forOf SMTP_EMAIL sendMail now tasks s))) ->
  exists line,
    In (Js.Console Js.error [line; reason])
       (snd (fst (Part001.forOf SMTP_EMAIL sendMail now tasks s))).
Proof.
  revert s. induction tasks as [|r tasks IH]; intros s; simpl.
  - intros [].
  - destruct (Part001.mailOptions SMTP_EMAIL r) as [e|m0]; [intros []|].
    destruct (sendMail s m0) as [s1 o].
    specialize (IH s1).
    destruct (Part001.forOf SMTP_EMAIL sendMail now tasks s1)
      as [[s2 evs] thrown].
    simpl in IH.
    destruct o as [reason0|]; simpl.
    + intros [H|[H|H]].
      * inversion H; subst. eexists. right. left. reflexivity.
      * discriminate.
      * destruct (IH H) as [line Hl]. exists line. right. right. exact Hl.
    + intros [H|[H|H]]; try discriminate.
      destruct (IH H) as [line Hl]. exists line. right. right. exact Hl.
Qed.

End Loops.

(** ** One tick *)

Section Tick.

Variable SMTP_EMAIL : string.
Variable Smtp : Type.
Variable sendMail : Smtp -> Js.MailOptions -> Smtp * option string.

Lemma Index_tick_store now fault db s :
  store (Index.checkAndSendReminders SMTP_EMAIL sendMail now fault db s) = db.
Proof.
  unfold Index.checkAndSendReminders, Index.tryBlock, Db.request, Db.reading.
  destruct fault as [m|]; [reflexivity|].
  destruct (0 <? List.length _)%nat; [|reflexivity].
  destruct (Index.forOf _ _ _ _) as [[s1 evs] thrown].
  apply tryCatch_store.
Qed.

Lemma Index_tick_rejected now fault db s :
  rejected (Index.checkAndSendReminders SMTP_EMAIL sendMail now fault db s)
  = None.
Proof. apply tryCatch_rejected. Qed.


Lemma Index_tick_empty now db s :
  Index.selectDue (Index.reminderTimeLower now) (Index.reminderTimeUpper now)
                  db = [] ->
  Index.checkAndSendReminders SMTP_EMAIL sendMail now None db s
  = mkRun db s [] None.
Proof.
  intros H.
  unfold Index.checkAndSendReminders, Index.tryBlock, Db.request, Db.reading.
  now rewrite H.
Qed.

(** src/index.js never writes to the console during a tick. *)
Lemma Index_tick_silent now fault db s :
  Js.logs (events (Index.checkAndSendReminders SMTP_EMAIL sendMail
                     now fault db s)) = [].
Proof.
  unfold Index.checkAndSendReminders, Index.tryBlock, Db.request, Db.reading.
  destruct fault as [m|]; [reflexivity|].
  destruct (0 <? List.length _)%nat; [|reflexivity].
  pose proof (Index_forOf_silent SMTP_EMAIL Smtp sendMail
                (Index.selectDue (Index.reminderTimeLower now)
                                 (Index.reminderTimeUpper now) db) s) as H.
  destruct (Index.forOf _ _ _ _) as [[s1 evs] [e|]]; simpl in *;
    [rewrite app_nil_r|]; exact H.
Qed.

Section Pg.

Variable TO_TIMESTAMP : string -> option Z.
Variable timestamp_in : string -> option Z.

Lemma Part000_query_store fault values db :
  fst (Part000.query TO_TIMESTAMP timestamp_in fault values db) = db.
Proof.
  unfold Part000.query, Db.request, Part000.statement.
  destruct fault; [reflexivity|].
  destruct (timestamp_in (fst values)); [|reflexivity].
  destruct (timestamp_in (snd values)); [|reflexivity].
  now destruct (Part000.where_ _ _ _ _).
Qed.

Lemma Part000_tick_store now fault db s :
  store (Part000.checkAndSendReminders TO_TIMESTAMP timestamp_in
           SMTP_EMAIL sendMail now fault db s) = db.
Proof.
  unfold Part000.checkAndSendReminders, Part000.tryBlock.
  pose proof (Part000_query_store fault
                (Part000.reminderTimeLower now,
                 Part000.reminderTimeUpper now) db) as H.
  destruct (Part000.query _ _ _ _ _) as [db1 [rows|m]]; simpl in H; subst.
  - destruct (0 <? List.length rows)%nat.
    + destruct (Part000.forOf _ _ _ _) as [[s1 evs] thrown].
      apply tryCatch_store.
    + reflexivity.
  - reflexivity.
Qed.


(** The same when the server raises on the statement itself. *)
Lemma Part000_tick_statement_error now db s m :
  snd (Part000.statement TO_TIMESTAMP timestamp_in
         (Part000.reminderTimeLower now, Part000.reminderTimeUpper now) db)
  = Db.Error m ->
  Part000.checkAndSendReminders TO_TIMESTAMP timestamp_in SMTP_EMAIL
    sendMail now None db s
  = mkRun db s
      [Js.Console Js.error ["Error in CheckAndSendReminers:"; m]] None.
Proof.
  intros H.
  unfold Part000.checkAndSendReminders, Part000.tryBlock, Part000.query,
    Db.request.
  pose proof (Part000_query_store None
                (Part000.reminderTimeLower now,
                 Part000.reminderTimeUpper now) db) as Hs.
  unfold Part000.query, Db.request in Hs.
  destruct (Part000.statement _ _ _ _) as [db1 resp].
  simpl in *. subst. reflexivity.
Qed.

End Pg.

Section Guarded.

Variable in_ : string -> string -> bool.

Lemma Part001_tick_store now fault db s :
  store (Part001.checkAndSendReminders in_ SMTP_EMAIL sendMail
           now fault db s) = db.
Proof.
  unfold Part001.checkAndSendReminders, Part001.tryBlock, Db.request,
    Db.reading.
  destruct fault as [m|]; [reflexivity|].
  destruct (0 <? List.length _)%nat; [|reflexivity].
  destruct (Part001.forOf _ _ _ _ _) as [[s1 evs] thrown].
  apply tryCatch_store.
Qed.

(** The guarded revision on a failed query: console lines only. *)
Lemma Part001_tick_fault now m db s :
  let r := Part001.checkAndSendReminders in_ SMTP_EMAIL sendMail
             now (Some m) db s in
  Js.dispatches (events r) = []
  /\ In (Js.Console Js.error
           [Part001.stamp now ++ " Supabase query error:"; m])%string
        (events r)
  /\ rejected r = None /\ store r = db /\ smtp r = s.
Proof. simpl. repeat split. right. left. reflexivity. Qed.

End Guarded.

End Tick.

(** ** Dispatch failures *)

(** C2. src/index.js has no handler around [sendMail]: with two due tasks,
    the first owned by Asha and the second by Ravi, and a transport that
    refuses Asha's message, the tick makes that one attempt, never submits
    Ravi's message, and writes nothing to the console. *)
Theorem C2_index_rejected_send_ends_the_loop :
  let db := Db.mkStore Sample.users [Sample.gym; Sample.bank] in
  let r := Index.checkAndSendReminders Sample.SMTP_EMAIL
             (Sample.refusing "asha@example.org") Sample.tenAM None db tt in
  Index.dueTasks db (Index.reminderTimeLower Sample.tenAM)
                    (Index.reminderTimeUpper Sample.tenAM)
  = [Sample.gym; Sample.bank]
  /\ map Js.to (Js.dispatches (events r)) = ["asha@example.org"]
  /\ Js.deliveries (events r) = []
  /\ Js.logs (events r) = []
  /\ rejected r = None.
Proof. vm_compute. repeat split. Qed.

(** On the same input the guarded revision submits both messages, delivers
    Ravi's and logs the refusal of Asha's. *)
Example Part001_rejected_send_is_isolated :
  let db := Db.mkStore Sample.users [Sample.gym; Sample.bank] in
  let r := Part001.checkAndSendReminders Sample.anyText Sample.SMTP_EMAIL
             (Sample.refusing "asha@example.org") Sample.tenAM None db tt in
  map Js.to (Js.dispatches (events r))
  = ["asha@example.org"; "ravi@example.org"]
  /\ map Js.to (Js.deliveries (events r)) = ["ravi@example.org"]
  /\ In (Js.Console Js.error
           ["[2026-12-01T10:00:00.000+05:30] Failed to send email to asha@example.org:";
            "550 mailbox unavailable"])
        (events r)
  /\ rejected r = None.
Proof.
  vm_compute. repeat split. right. right. right. left. reflexivity.
Qed.

(** The guarded revision in general: when every owner resolves, a tick
    submits one message for every row of the query, whatever the transport
    answers, and the tick ends normally. *)
Lemma Part001_tick_attempts_every_task
    in_ SMTP_EMAIL (Smtp : Type)
    (sendMail : Smtp -> Js.MailOptions -> Smtp * option string)
    now db (s : Smtp) :
  let tasks := Part001.selectDue in_
                 (Part001.inOperand (Luxon.plus now 14 30)
                                    (Luxon.plus now 15 30)) db in
  Forall Index.resolved tasks ->
  let r := Part001.checkAndSendReminders in_ SMTP_EMAIL sendMail
             now None db s in
  Js.dispatches (events r) = Part001.mails SMTP_EMAIL tasks
  /\ List.length (Js.dispatches (events r)) = List.length tasks
  /\ rejected r = None.
Proof.
  intros tasks Hres r.
  assert (Hlen : forall l, Forall Index.resolved l ->
            List.length (Part001.mails SMTP_EMAIL l) = List.length l).
  { induction 1 as [|x l Hx Hl IH]; [reflexivity|].
    rewrite Part001_mails_cons.
    destruct (Part001_resolved_mail SMTP_EMAIL x Hx) as [m Hm].
    rewrite Hm. simpl. now rewrite IH. }
  assert (H : Js.dispatches (events r) = Part001.mails SMTP_EMAIL tasks).
  { subst r.
    unfold Part001.checkAndSendReminders, Part001.tryBlock, Db.request,
      Db.reading.
    fold tasks.
    destruct (0 <? List.length tasks)%nat eqn:E.
    - pose proof (Part001_forOf_all SMTP_EMAIL Smtp sendMail now tasks s Hres)
        as H.
      destruct (Part001.forOf SMTP_EMAIL sendMail now tasks s)
        as [[s1 evs] thrown].
      destruct H as [H1 H2]. subst thrown. simpl. exact H1.
    - apply Nat.ltb_ge in E. destruct tasks; [reflexivity|simpl in E; lia]. }
  split; [exact H|]. split; [|apply tryCatch_rejected].
  rewrite H. now apply Hlen.
Qed.


(** On the same input the inner join of the pg revision leaves the ownerless
    task out of the query and both other messages are delivered; the guarded
    revision stops like src/index.js does, after logging the exception. *)
Example Part000_missing_owner_is_left_out :
  let db := Db.mkStore Sample.users [Sample.gym; Sample.orphan; Sample.bank] in
  let r := Part000.checkAndSendReminders Spec.parseReminder Spec.parseReminder
             Sample.SMTP_EMAIL Sample.accepting Sample.tenAM None db tt in
  let r1 := Part001.checkAndSendReminders Sample.anyText Sample.SMTP_EMAIL
              Sample.accepting Sample.tenAM None db tt in
  map Js.to (Js.deliveries (events r))
  = ["asha@example.org"; "ravi@example.org"]
  /\ map Js.to (Js.dispatches (events r1)) = ["asha@example.org"]
  /\ List.length (Js.logs (events r1)) = 4%nat.
Proof. vm_compute. repeat split. Qed.

(** C9. src/index.js: the two orders of the same two due tasks give
    different dispatches when the transport refuses Asha's message: with
    Asha's task first only her message is submitted, with Ravi's task first
    both are. *)
Theorem C9_index_dispatch_depends_on_order :
  let lower := Index.reminderTimeLower Sample.tenAM in
  let upper := Index.reminderTimeUpper Sample.tenAM in
  let dbAB := Db.mkStore Sample.users [Sample.gym; Sample.bank] in
  let dbBA := Db.mkStore Sample.users [Sample.bank; Sample.gym] in
  let tick db := Index.checkAndSendReminders Sample.SMTP_EMAIL
                   (Sample.refusing "asha@example.org") Sample.tenAM None
                   db tt in
  Permutation (Index.selectDue lower upper dbAB)
              (Index.selectDue lower upper dbBA)
  /\ map Js.to (Js.dispatches (events (tick dbAB))) = ["asha@example.org"]
  /\ map Js.to (Js.dispatches (events (tick dbBA)))
     = ["ravi@example.org"; "asha@example.org"]
  /\ ~ Permutation (Js.dispatches (events (tick dbAB)))
                   (Js.dispatches (events (tick dbBA))).
Proof.
  cbv zeta. split; [|split; [|split]].
  - vm_compute. apply perm_swap.
  - vm_compute. reflexivity.
  - vm_compute. reflexivity.
  - intros H. apply Permutation_length in H. vm_compute in H. discriminate.
Qed.

(** Where nothing fails the order does not matter: with every owner
    resolved and a transport that accepts everything, src/index.js submits
    the messages of the rows, so two orders of the rows give the same
    messages up to order. *)
Lemma Index_mails_permutation SMTP_EMAIL tasks tasks' :
  Permutation tasks tasks' ->
  Permutation (Index.mails SMTP_EMAIL tasks) (Index.mails SMTP_EMAIL tasks').
Proof.
  induction 1 as [|x l l' H IH|x y l|l l' l'' H1 IH1 H2 IH2].
  - constructor.
  - rewrite !Index_mails_cons.
    destruct (Index.mailOptions SMTP_EMAIL x); [exact IH|now constructor].
  - rewrite !Index_mails_cons.
    destruct (Index.mailOptions SMTP_EMAIL x), (Index.mailOptions SMTP_EMAIL y);
      try reflexivity. apply perm_swap.
  - now transitivity (Index.mails SMTP_EMAIL l').
Qed.

Lemma Index_forOf_order_insensitive_without_failure
    SMTP_EMAIL (Smtp : Type)
    (sendMail : Smtp -> Js.MailOptions -> Smtp * option string)
    tasks tasks' s s' :
  Permutation tasks tasks' ->
  Forall Index.resolved tasks ->
  (forall s0 m, snd (sendMail s0 m) = None) ->
  Permutation
    (Js.dispatches (snd (fst (Index.forOf SMTP_EMAIL sendMail tasks s))))
    (Js.dispatches (snd (fst (Index.forOf SMTP_EMAIL sendMail tasks' s')))).
Proof.
  intros Hp Hres Hacc.
  assert (Hres' : Forall Index.resolved tasks').
  { rewrite Forall_forall in *. intros x Hx. apply Hres.
    eapply Permutation_in; [symmetry; exact Hp|exact Hx]. }
  pose proof (Index_forOf_all SMTP_EMAIL Smtp sendMail tasks s Hres Hacc) as H1.
  pose proof (Index_forOf_all SMTP_EMAIL Smtp sendMail tasks' s' Hres' Hacc)
    as H2.
  destruct (Index.forOf SMTP_EMAIL sendMail tasks s) as [[a evs] t].
  destruct (Index.forOf SMTP_EMAIL sendMail tasks' s') as [[a' evs'] t'].
  simpl. destruct H1 as [H1 _], H2 as [H2 _]. rewrite H1, H2.
  now apply Index_mails_permutation.
Qed.

(** ** Query failures *)



(** ** Selection and frame *)

(** C5. A task whose completion flag is true is selected by no revision,
    whatever its reminder text, the bounds or the operand: the filters of
    src/index.js and of the guarded revision drop it, and the WHERE clause
    of the pg revision is false on it. *)
Theorem C5_completed_task_is_never_selected :
  forall p : Post.row,
    Post.completestatus p = Some true ->
    (forall db lower upper, ~ In p (Index.dueTasks db lower upper))
    /\ (forall TO_TIMESTAMP lo hi,
          Part000.whereClause TO_TIMESTAMP lo hi p = Some false)
    /\ (forall in_ db operand, ~ In p (Part001.dueTasks in_ db operand)).
Proof.
  intros p Hp. split; [|split].
  - intros db lower upper H. apply Index_dueTasks_iff in H.
    destruct H as (_ & H & _). congruence.
  - intros. unfold Part000.whereClause. now rewrite Hp.
  - intros in_ db operand H. unfold Part001.dueTasks in H.
    apply filter_In in H. destruct H as [_ H].
    unfold Part001.due in H. rewrite Hp in H. discriminate.
Qed.

Lemma C5_witness :
  Post.completestatus Sample.done = Some true
  /\ ~ In Sample.done
       (Index.dueTasks
          (Db.mkStore Sample.users [Sample.gym; Sample.done])
          (Index.reminderTimeLower Sample.tenAM)
          (Index.reminderTimeUpper Sample.tenAM)).
Proof.
  split; [reflexivity|].
  exact (proj1 (C5_completed_task_is_never_selected Sample.done eq_refl)
               _ _ _).
Defined.

(** C6. A tick writes nothing: the store it leaves is the store it found,
    task rows and user rows alike.  So a task selected at one tick is
    selected again at any later tick whose bounds still accept it. *)
Theorem C6_tick_leaves_the_store_unchanged :
  forall SMTP_EMAIL (Smtp : Type)
         (sendMail : Smtp -> Js.MailOptions -> Smtp * option string)
         now fault db (s : Smtp) p now',
    let r := Index.checkAndSendReminders SMTP_EMAIL sendMail now fault db s in
    In p (Index.dueTasks db (Index.reminderTimeLower now)
                            (Index.reminderTimeUpper now)) ->
    Index.due (Index.reminderTimeLower now') (Index.reminderTimeUpper now') p
    = true ->
    store r = db
    /\ Db.post (store r) = Db.post db
    /\ Db.logindata (store r) = Db.logindata db
    /\ In p (Index.dueTasks (store r) (Index.reminderTimeLower now')
                                      (Index.reminderTimeUpper now')).
Proof.
  intros SMTP_EMAIL Smtp sendMail now fault db s p now' r Hin Hdue.
  assert (Hs : store r = db) by apply Index_tick_store.
  rewrite Hs. repeat split.
  unfold Index.dueTasks in *. apply filter_In in Hin.
  apply filter_In. split; [tauto|exact Hdue].
Qed.

(** The task set for 10:15:30 AM is on the upper bound at 10:00:00 and on
    the lower bound at 10:01:00. *)
Lemma C6_witness :
  let db := Db.mkStore Sample.users [Sample.onTheEdge] in
  let r := Index.checkAndSendReminders Sample.SMTP_EMAIL Sample.accepting
             Sample.tenAM None db tt in
  store r = db
  /\ Db.post (store r) = Db.post db
  /\ Db.logindata (store r) = Db.logindata db
  /\ In Sample.onTheEdge
        (Index.dueTasks (store r)
           (Index.reminderTimeLower (Sample.tenAM + 60000))
           (Index.reminderTimeUpper (Sample.tenAM + 60000))).
Proof.
  apply (C6_tick_leaves_the_store_unchanged Sample.SMTP_EMAIL unit
           Sample.accepting Sample.tenAM None
           (Db.mkStore Sample.users [Sample.onTheEdge]) tt Sample.onTheEdge
           (Sample.tenAM + 60000)).
  - vm_compute. left. reflexivity.
  - vm_compute. reflexivity.
Defined.

(** The same task is therefore notified by both ticks. *)
Example Index_notifies_twice :
  let db := Db.mkStore Sample.users [Sample.onTheEdge] in
  let r1 := Index.checkAndSendReminders Sample.SMTP_EMAIL Sample.accepting
              Sample.tenAM None db tt in
  let r2 := Index.checkAndSendReminders Sample.SMTP_EMAIL Sample.accepting
              (Sample.tenAM + 60000) None (store r1) (smtp r1) in
  map Js.to (Js.deliveries (events r1)) = ["ravi@example.org"]
  /\ Js.deliveries (events r2) = Js.deliveries (events r1).
Proof. vm_compute. split; reflexivity. Qed.

(** The other two revisions write nothing either. *)
Lemma Part000_Part001_tick_leaves_the_store_unchanged
    SMTP_EMAIL (Smtp : Type)
    (sendMail : Smtp -> Js.MailOptions -> Smtp * option string)
    TO_TIMESTAMP timestamp_in in_ now fault db (s : Smtp) :
  store (Part000.checkAndSendReminders TO_TIMESTAMP timestamp_in SMTP_EMAIL
           sendMail now fault db s) = db
  /\ store (Part001.checkAndSendReminders in_ SMTP_EMAIL sendMail
              now fault db s) = db.
Proof. split; [apply Part000_tick_store|apply Part001_tick_store]. Qed.

(** C7. When the query of a tick returns no row, the tick ends normally and
    hands nothing to the transport (nor does anything else). *)
Theorem C7_no_due_task_no_dispatch :
  forall SMTP_EMAIL (Smtp : Type)
         (sendMail : Smtp -> Js.MailOptions -> Smtp * option string)
         now db (s : Smtp),
    Index.selectDue (Index.reminderTimeLower now)
                    (Index.reminderTimeUpper now) db = [] ->
    let r := Index.checkAndSendReminders SMTP_EMAIL sendMail now None db s in
    Js.dispatches (events r) = []
    /\ events r = []
    /\ rejected r = None
    /\ smtp r = s
    /\ store r = db.
Proof.
  intros SMTP_EMAIL Smtp sendMail now db s H r. subst r.
  rewrite Index_tick_empty by exact H. repeat split.
Qed.

(** The same in the other two revisions, up to their console lines. *)
Lemma Part000_Part001_no_due_task_no_dispatch
    SMTP_EMAIL (Smtp : Type)
    (sendMail : Smtp -> Js.MailOptions -> Smtp * option string)
    TO_TIMESTAMP timestamp_in in_ now db (s : Smtp) :
  (snd (Part000.query TO_TIMESTAMP timestamp_in None
          (Part000.reminderTimeLower now, Part000.reminderTimeUpper now) db)
   = Db.Data [] ->
   Part000.checkAndSendReminders TO_TIMESTAMP timestamp_in SMTP_EMAIL sendMail
     now None db s
   = mkRun db s [] None)
  /\ (Part001.selectDue in_
        (Part001.inOperand (Luxon.plus now 14 30) (Luxon.plus now 15 30)) db
      = [] ->
      let r := Part001.checkAndSendReminders in_ SMTP_EMAIL sendMail
                 now None db s in
      Js.dispatches (events r) = [] /\ rejected r = None
      /\ smtp r = s /\ store r = db).
Proof.
  split.
  - intros H. unfold Part000.checkAndSendReminders, Part000.tryBlock.
    pose proof (Part000_query_store TO_TIMESTAMP timestamp_in None
                  (Part000.reminderTimeLower now,
                   Part000.reminderTimeUpper now) db) as Hs.
    destruct (Part000.query _ _ _ _ _) as [db1 resp].
    simpl in *. subst. reflexivity.
  - intros H. cbv zeta.
    unfold Part001.checkAndSendReminders, Part001.tryBlock, Db.request,
      Db.reading.
    rewrite H. simpl. repeat split.
Qed.

Lemma C7_witness :
  let db := Db.mkStore Sample.users [Sample.late; Sample.done] in
  let r := Index.checkAndSendReminders Sample.SMTP_EMAIL Sample.accepting
             Sample.tenAM None db tt in
  Js.dispatches (events r) = []
  /\ events r = []
  /\ rejected r = None
  /\ smtp r = tt
  /\ store r = db.
Proof.
  apply (C7_no_due_task_no_dispatch Sample.SMTP_EMAIL unit Sample.accepting
           Sample.tenAM (Db.mkStore Sample.users [Sample.late; Sample.done])
           tt).
  vm_compute. reflexivity.
Defined.

(** ** The message *)



Lemma joined_sound db p l :
  In (p, l) (Part000.joined db) ->
  In p (Db.post db) /\ In l (Db.logindata db)
  /\ Logindata.id l = Post.user_id p.
Proof.
  unfold Part000.joined. intros H. apply in_flat_map in H.
  destruct H as [p' [Hp' H]]. apply in_map_iff in H.
  destruct H as [l' [Heq Hl']]. inversion Heq; subst.
  apply filter_In in Hl'. destruct Hl' as [Hl' Hid].
  apply Z.eqb_eq in Hid. now repeat split.
Qed.

Section Message.

Variable SMTP_EMAIL : string.
Variable Smtp : Type.
Variable sendMail : Smtp -> Js.MailOptions -> Smtp * option string.


Section Pg.

Variable TO_TIMESTAMP : string -> option Z.
Variable timestamp_in : string -> option Z.



End Pg.

End Message.



(** ** The task routes *)

Section Isolation.

Import Http.

Variable verify : string -> option (Z * string).
Variable timeofentry_le : option string -> option string -> bool.

Lemma validateToken_sound req userId :
  IndexHttp.validateToken verify req = inr userId ->
  exists token email, verify token = Some (userId, email).
Proof.
  unfold IndexHttp.validateToken.
  destruct (negb (truthy _)); [discriminate|].
  destruct (match authorization req with Some _ => _ | None => _ end)
    as [t|]; [|discriminate].
  destruct (verify t) as [[u e]|] eqn:E; [|discriminate].
  intros H. inversion H; subst. eauto.
Qed.

Lemma insertDesc_In p q l :
  In q (IndexHttp.insertDesc timeofentry_le p l) <-> q = p \/ In q l.
Proof.
  induction l as [|x l IH]; simpl.
  - split; intros [H|H]; auto; contradiction.
  - destruct (timeofentry_le _ _); simpl.
    + split; intros [H|H]; auto.
    + rewrite IH. split; intros H; intuition.
Qed.

Lemma orderDesc_In q l :
  In q (IndexHttp.orderDesc timeofentry_le l) <-> In q l.
Proof.
  induction l as [|x l IH]; simpl; [tauto|].
  rewrite insertDesc_In, IH. split; intros [H|H]; auto.
Qed.

Lemma owned_iff userId p :
  IndexHttp.owned userId p = true <-> Post.user_id p = userId.
Proof. unfold IndexHttp.owned. apply Z.eqb_eq. Qed.

Lemma byStatus_owned userId c k p :
  IndexHttp.byStatus userId c k p = true -> Post.user_id p = userId.
Proof.
  unfold IndexHttp.byStatus. rewrite !andb_true_iff.
  intros [[H _] _]. now apply owned_iff.
Qed.

(** A filter that asks for the owner sees the owner's rows only. *)
Lemma filter_byStatus_own userId c k l :
  filter (IndexHttp.byStatus userId c k) l
  = filter (fun p => Db.eq_bool (Post.completestatus p) c
                     && Db.eq_bool (Post.currentstatus p) k)
           (filter (IndexHttp.owned userId) l).
Proof.
  induction l as [|p l IH]; simpl; [reflexivity|].
  unfold IndexHttp.byStatus at 1.
  destruct (IndexHttp.owned userId p); simpl.
  - destruct (_ && _); now rewrite IH.
  - exact IH.
Qed.

(** An update on the owner's rows that keeps [user_id] leaves the rows of
    the others as they are. *)
Lemma foreign_map userId (hit : Post.row -> bool) set l :
  (forall p, hit p = true -> IndexHttp.owned userId p = true) ->
  (forall p, Post.user_id (set p) = Post.user_id p) ->
  filter (fun p => negb (IndexHttp.owned userId p))
         (map (fun q => if hit q then set q else q) l)
  = filter (fun p => negb (IndexHttp.owned userId p)) l.
Proof.
  intros Hhit Hset. induction l as [|p l IH]; simpl; [reflexivity|].
  destruct (hit p) eqn:E.
  - assert (Ho : IndexHttp.owned userId (set p) = true).
    { apply owned_iff. rewrite Hset. apply owned_iff. now apply Hhit. }
    rewrite Ho, (Hhit p E). simpl. exact IH.
  - destruct (negb (IndexHttp.owned userId p)); now rewrite IH.
Qed.

Lemma updateSingle_confined id userId set db :
  (forall p, Post.user_id (set p) = Post.user_id p) ->
  let out := IndexHttp.updateSingle id userId set db in
  IndexHttp.foreign userId (fst out) = IndexHttp.foreign userId db
  /\ Db.logindata (fst out) = Db.logindata db
  /\ (forall r, snd out = Db.Data r -> Post.user_id r = userId).
Proof.
  intros Hset. unfold IndexHttp.updateSingle.
  set (hit := fun p => (Post.id p =? id) && IndexHttp.owned userId p).
  destruct (filter hit (Db.post db)) as [|p [|p' rest]] eqn:E; simpl.
  - repeat split. discriminate.
  - repeat split.
    + unfold IndexHttp.foreign. simpl. apply foreign_map; [|exact Hset].
      intros q Hq. unfold hit in Hq. apply andb_true_iff in Hq. tauto.
    + intros r Hr. inversion Hr; subst r.
      assert (Hp : In p (filter hit (Db.post db))) by (rewrite E; now left).
      apply filter_In in Hp. destruct Hp as [_ Hp]. unfold hit in Hp.
      apply andb_true_iff in Hp. destruct Hp as [_ Hp].
      rewrite Hset. now apply owned_iff.
  - repeat split. discriminate.
Qed.

Lemma patchStatus_confined id userId b failure fault db :
  let out := IndexHttp.patchStatus id userId b failure fault db in
  IndexHttp.foreign userId (fst out) = IndexHttp.foreign userId db
  /\ Db.logindata (fst out) = Db.logindata db
  /\ (forall p, In p (rowsOf (sent (snd out))) -> Post.user_id p = userId).
Proof.
  unfold IndexHttp.patchStatus, Db.request.
  destruct fault as [m|]; simpl.
  - repeat split. intros p [].
  - pose proof (updateSingle_confined id userId (IndexHttp.setStatus b) db
                  (fun p => eq_refl)) as H.
    destruct (IndexHttp.updateSingle id userId (IndexHttp.setStatus b) db)
      as [db1 [r|m]]; simpl in *; destruct H as (H1 & H2 & H3);
      repeat split; try assumption.
    + intros p [Hp|[]]. subst p. now apply H3.
    + intros p [].
Qed.

Lemma putTasks_confined id userId b fault db :
  let out := IndexHttp.putTasks id userId b fault db in
  IndexHttp.foreign userId (fst out) = IndexHttp.foreign userId db
  /\ Db.logindata (fst out) = Db.logindata db
  /\ (forall p, In p (rowsOf (sent (snd out))) -> Post.user_id p = userId).
Proof.
  unfold IndexHttp.putTasks.
  destruct (editedtask b) as [e|]; [|simpl; repeat split; intros p []].
  destruct (negb (truthy (Some e))); [simpl; repeat split; intros p []|].
  unfold Db.request. destruct fault as [m|]; simpl.
  - repeat split. intros p [].
  - pose proof (updateSingle_confined id userId (IndexHttp.setContent e b)
                  db (fun p => eq_refl)) as H.
    destruct (IndexHttp.updateSingle id userId (IndexHttp.setContent e b) db)
      as [db1 [r|m]]; simpl in *; destruct H as (H1 & H2 & H3);
      repeat split; try assumption.
    + intros p [Hp|[]]. subst p. now apply H3.
    + intros p [].
Qed.

Lemma postTasks_confined userId b fault db :
  let out := IndexHttp.postTasks userId b fault db in
  IndexHttp.foreign userId (fst out) = IndexHttp.foreign userId db
  /\ Db.logindata (fst out) = Db.logindata db
  /\ (forall p, In p (rowsOf (sent (snd out))) -> Post.user_id p = userId).
Proof.
  unfold IndexHttp.postTasks.
  destruct (task b) as [t|]; [|simpl; repeat split; intros p []].
  destruct (type b) as [ty|]; [|simpl; repeat split; intros p []].
  destruct (remindertime b) as [rt|]; [|simpl; repeat split; intros p []].
  destruct (_ || _); [simpl; repeat split; intros p []|].
  unfold Db.request. destruct fault as [m|]; simpl.
  - repeat split. intros p [].
  - repeat split.
    + unfold IndexHttp.foreign. simpl. rewrite filter_app. simpl.
      unfold IndexHttp.owned at 2. simpl. rewrite Z.eqb_refl. simpl.
      apply app_nil_r.
    + intros p [Hp|[]]. subst p. reflexivity.
Qed.

Lemma listTasks_confined userId c failure fault db :
  let out := IndexHttp.listTasks timeofentry_le userId c failure fault db in
  fst out = db
  /\ (forall p, In p (rowsOf (sent (snd out))) -> Post.user_id p = userId).
Proof.
  unfold IndexHttp.listTasks, Db.request, Db.reading.
  destruct fault as [m|]; simpl.
  - split; [reflexivity|intros p []].
  - split; [reflexivity|]. intros p Hp.
    apply (proj1 (orderDesc_In _ _)) in Hp. apply filter_In in Hp.
    destruct Hp as [_ Hp]. now apply byStatus_owned in Hp.
Qed.

(** The read-only routes answer from the caller's rows alone. *)
Lemma readOnly_own userId req fault db db2 :
  readOnly (target req) = true ->
  IndexHttp.own userId db2 = IndexHttp.own userId db ->
  snd (IndexHttp.handler timeofentry_le userId req fault db2)
  = snd (IndexHttp.handler timeofentry_le userId req fault db).
Proof.
  unfold IndexHttp.own. intros Hr Ho. unfold IndexHttp.handler.
  destruct (target req); try discriminate;
    unfold IndexHttp.listTasks, IndexHttp.getReminders,
      IndexHttp.getReminderspie, Db.request, Db.reading;
    destruct fault as [m|]; simpl; try reflexivity;
    rewrite ?filter_byStatus_own, ?Ho; reflexivity.
Qed.

End Isolation.

(** C10. Every route behind [validateToken] works for the user of the
    token and for nobody else: [req.userId] is the [userId] the token
    decodes to, every task row in the answer has that [user_id], the rows of
    [post] with another [user_id] and the accounts are after the request
    what they were before it, and the answer of a read-only route is the
    same on any store that holds the same rows for that user. *)
Theorem C10_task_routes_are_confined_to_the_token_user :
  forall (verify : string -> option (Z * string))
         (timeofentry_le : option string -> option string -> bool)
         req fault db userId,
    IndexHttp.validateToken verify req = inr userId ->
    let out := IndexHttp.serve verify timeofentry_le req fault db in
    (exists token email, verify token = Some (userId, email))
    /\ (forall p, In p (Http.rowsOf (Http.sent (snd out))) ->
                  Post.user_id p = userId)
    /\ IndexHttp.foreign userId (fst out) = IndexHttp.foreign userId db
    /\ Db.logindata (fst out) = Db.logindata db
    /\ (Http.readOnly (Http.target req) = true ->
        fst out = db
        /\ forall db2,
             IndexHttp.own userId db2 = IndexHttp.own userId db ->
             snd (IndexHttp.serve verify timeofentry_le req fault db2)
             = snd out).
Proof.
  intros verify timeofentry_le req fault db userId Hv out.
  split; [eapply validateToken_sound; exact Hv|].
  assert (Hserve : forall d,
            IndexHttp.serve verify timeofentry_le req fault d
            = IndexHttp.handler timeofentry_le userId req fault d).
  { intros d. unfold IndexHttp.serve. now rewrite Hv. }
  subst out. rewrite Hserve.
  assert (Hmain :
    (forall p,
        In p (Http.rowsOf (Http.sent
               (snd (IndexHttp.handler timeofentry_le userId req fault db)))) ->
        Post.user_id p = userId)
    /\ IndexHttp.foreign userId
         (fst (IndexHttp.handler timeofentry_le userId req fault db))
       = IndexHttp.foreign userId db
    /\ Db.logindata (fst (IndexHttp.handler timeofentry_le userId req fault db))
       = Db.logindata db
    /\ (Http.readOnly (Http.target req) = true ->
        fst (IndexHttp.handler timeofentry_le userId req fault db) = db)).
  { unfold IndexHttp.handler.
    destruct (Http.target req) as [| | |id|id|id|id| |].
    - destruct (listTasks_confined timeofentry_le userId false
                  "Failed to fetch pending tasks" fault db) as [H1 H2].
      rewrite H1. repeat split; auto.
    - destruct (listTasks_confined timeofentry_le userId true
                  "Failed to fetch completed tasks" fault db) as [H1 H2].
      rewrite H1. repeat split; auto.
    - destruct (postTasks_confined userId (Http.payload req) fault db)
        as (H1 & H2 & H3).
      repeat split; auto. discriminate.
    - destruct (patchStatus_confined id userId (Http.payload req)
                  "Failed to update task status" fault db) as (H1 & H2 & H3).
      repeat split; auto. discriminate.
    - destruct (patchStatus_confined id userId (Http.payload req)
                  "Failed to update task status" fault db) as (H1 & H2 & H3).
      repeat split; auto. discriminate.
    - destruct (putTasks_confined id userId (Http.payload req) fault db)
        as (H1 & H2 & H3).
      repeat split; auto. discriminate.
    - destruct (patchStatus_confined id userId (Http.payload req)
                  "Failed to undo task" fault db) as (H1 & H2 & H3).
      repeat split; auto. discriminate.
    - unfold IndexHttp.getReminders, Db.request, Db.reading.
      destruct fault; simpl; repeat split; auto; intros p [].
    - unfold IndexHttp.getReminderspie, Db.request, Db.reading.
      destruct fault; simpl; repeat split; auto; intros p []. }
  destruct Hmain as (H1 & H2 & H3 & H4).
  repeat split; auto.
  intros db2 Ho. rewrite Hserve. now apply readOnly_own.
Qed.

(** Ravi marks his task as done with his token while Asha's rows sit in the
    same table. *)
Lemma C10_witness :
  let db := Db.mkStore Sample.users [Sample.gym; Sample.bank; Sample.late] in
  let req := Http.mkRequest (Http.PATCH_tasks 12) (Some "Bearer token-ravi")
               (Http.mkBody None None None (Some true) None (Some false)
                            None None) in
  let out := IndexHttp.serve Sample.verify Sample.timeofentry_le req None db in
  (exists token email, Sample.verify token = Some (2, email))
  /\ (forall p, In p (Http.rowsOf (Http.sent (snd out))) ->
                Post.user_id p = 2)
  /\ IndexHttp.foreign 2 (fst out) = IndexHttp.foreign 2 db
  /\ Db.logindata (fst out) = Db.logindata db
  /\ (Http.readOnly (Http.target req) = true ->
      fst out = db
      /\ forall db2,
           IndexHttp.own 2 db2 = IndexHttp.own 2 db ->
           snd (IndexHttp.serve Sample.verify Sample.timeofentry_le req None
                  db2)
           = snd out).
Proof.
  exact (C10_task_routes_are_confined_to_the_token_user Sample.verify
           Sample.timeofentry_le
           (Http.mkRequest (Http.PATCH_tasks 12) (Some "Bearer token-ravi")
              (Http.mkBody None None None (Some true) None (Some false)
                           None None))
           None
           (Db.mkStore Sample.users [Sample.gym; Sample.bank; Sample.late])
           2 eq_refl).
Defined.

(** What that request does to the table. *)
Example patch_marks_only_the_callers_task :
  let db := Db.mkStore Sample.users [Sample.gym; Sample.bank; Sample.late] in
  let req id token :=
    Http.mkRequest (Http.PATCH_tasks id) (Some token)
      (Http.mkBody None None None (Some true) None (Some false) None None) in
  map Post.completestatus
      (Db.post (fst (IndexHttp.serve Sample.verify Sample.timeofentry_le
                       (req 12 "Bearer token-ravi") None db)))
  = [Some false; Some true; Some false]
  /\ IndexHttp.serve Sample.verify Sample.timeofentry_le
       (req 11 "Bearer token-ravi") None db
     = (db, Http.mkResponse 500 (Http.Failure "Failed to update task status"))
  /\ IndexHttp.serve Sample.verify Sample.timeofentry_le
       (req 11 "Bearer nobody") None db
     = (db, Http.mkResponse 403 (Http.Failure "Invalid or expired token"))
  /\ IndexHttp.serve Sample.verify Sample.timeofentry_le
       (req 11 "token-ravi") None db
     = (db, Http.mkResponse 401
              (Http.Failure "Access denied: No token provided")).
Proof. vm_compute. repeat split. Qed.


(* ================================================================== *)
(** * Further properties of the sweep                                   *)
(* ================================================================== *)

Section SweepOrder.

Variable SMTP_EMAIL : string.
Variable Smtp : Type.
Variable sendMail : Smtp -> Js.MailOptions -> Smtp * option string.

(** src/index.js: every submission of the loop is accepted, except possibly
    the last one. *)
Lemma Index_forOf_rejects_last tasks s :
  let evs := snd (fst (Index.forOf SMTP_EMAIL sendMail tasks s)) in
  Js.dispatches evs = Js.deliveries evs
  \/ exists m, Js.dispatches evs = (Js.deliveries evs ++ [m])%list.
Proof.
  revert s. induction tasks as [|r tasks IH]; intros s; simpl.
  - now left.
  - destruct (Index.mailOptions SMTP_EMAIL r) as [e|m]; simpl; [now left|].
    destruct (sendMail s m) as [s1 [reason|]]; simpl.
    + right. exists m. reflexivity.
    + specialize (IH s1).
      destruct (Index.forOf SMTP_EMAIL sendMail tasks s1) as [[s2 evs] thrown].
      simpl in *. unfold Js.dispatches, Js.deliveries in *. simpl.
      destruct IH as [IH|[m' IH]]; rewrite IH; [now left|right].
      exists m'. reflexivity.
Qed.

End SweepOrder.

(** X1. src/index.js: when the owner of every selected task resolves and the
    transport accepts every message, a tick delivers exactly one message
    for each selected task, in the order of the query. *)
Theorem X1_index_tick_delivers_every_due_task :
  forall SMTP_EMAIL (Smtp : Type)
         (sendMail : Smtp -> Js.MailOptions -> Smtp * option string)
         now db (s : Smtp),
    let tasks := Index.selectDue (Index.reminderTimeLower now)
                                 (Index.reminderTimeUpper now) db in
    Forall Index.resolved tasks ->
    (forall s' m, snd (sendMail s' m) = None) ->
    let r := Index.checkAndSendReminders SMTP_EMAIL sendMail now None db s in
    Js.deliveries (events r) = Index.mails SMTP_EMAIL tasks
    /\ Js.dispatches (events r) = Index.mails SMTP_EMAIL tasks
    /\ List.length (Js.deliveries (events r)) = List.length tasks.
Proof.
  intros SMTP_EMAIL Smtp sendMail now db s tasks Hres Hacc r.
  assert (Hlen : forall l, Forall Index.resolved l ->
            List.length (Index.mails SMTP_EMAIL l) = List.length l).
  { induction 1 as [|x l Hx Hl IH]; [reflexivity|].
    rewrite Index_mails_cons.
    destruct (Index_resolved_mail SMTP_EMAIL x Hx) as [m Hm].
    rewrite Hm. simpl. now rewrite IH. }
  assert (H : Js.deliveries (events r) = Index.mails SMTP_EMAIL tasks
              /\ Js.dispatches (events r) = Index.mails SMTP_EMAIL tasks).
  { subst r.
    unfold Index.checkAndSendReminders, Index.tryBlock, Db.request, Db.reading.
    fold tasks.
    destruct (0 <? List.length tasks)%nat eqn:E.
    - pose proof (Index_forOf_all SMTP_EMAIL Smtp sendMail tasks s Hres Hacc)
        as H.
      destruct (Index.forOf SMTP_EMAIL sendMail tasks s) as [[s1 evs] thrown].
      destruct H as (H1 & H2 & H3). subst thrown. simpl. now split.
    - apply Nat.ltb_ge in E.
      destruct tasks; [split; reflexivity|simpl in E; lia]. }
  destruct H as [H1 H2]. repeat split; try assumption.
  rewrite H1. now apply Hlen.
Qed.

Lemma X1_witness :
  let tasks := Index.selectDue (Index.reminderTimeLower Sample.tenAM)
                 (Index.reminderTimeUpper Sample.tenAM)
                 (Db.mkStore Sample.users [Sample.gym; Sample.late; Sample.bank])
  in
  let r := Index.checkAndSendReminders Sample.SMTP_EMAIL Sample.accepting
             Sample.tenAM None
             (Db.mkStore Sample.users [Sample.gym; Sample.late; Sample.bank])
             tt in
  Js.deliveries (events r) = Index.mails Sample.SMTP_EMAIL tasks
  /\ Js.dispatches (events r) = Index.mails Sample.SMTP_EMAIL tasks
  /\ List.length (Js.deliveries (events r)) = List.length tasks.
Proof.
  refine (X1_index_tick_delivers_every_due_task Sample.SMTP_EMAIL unit
            Sample.accepting Sample.tenAM
            (Db.mkStore Sample.users [Sample.gym; Sample.late; Sample.bank])
            tt _ _).
  - vm_compute. repeat constructor; discriminate.
  - intros s' m. reflexivity.
Defined.

(** X2. src/index.js: in every tick the messages handed to the transport
    are an initial part of the messages of the selected tasks, in the order
    of the query, and the transport has accepted all of them except
    possibly the last. *)
Theorem X2_index_tick_works_through_the_rows_in_order :
  forall SMTP_EMAIL (Smtp : Type)
         (sendMail : Smtp -> Js.MailOptions -> Smtp * option string)
         now fault db (s : Smtp),
    let r := Index.checkAndSendReminders SMTP_EMAIL sendMail now fault db s in
    (exists rest,
        Index.mails SMTP_EMAIL
          (Index.selectDue (Index.reminderTimeLower now)
                           (Index.reminderTimeUpper now) db)
        = (Js.dispatches (events r) ++ rest)%list)
    /\ (Js.dispatches (events r) = Js.deliveries (events r)
        \/ exists m,
             Js.dispatches (events r) = (Js.deliveries (events r) ++ [m])%list).
Proof.
  intros SMTP_EMAIL Smtp sendMail now fault db s r. subst r.
  unfold Index.checkAndSendReminders, Index.tryBlock, Db.request, Db.reading.
  destruct fault as [e|]; [simpl; split; [eexists; reflexivity|now left]|].
  set (tasks := Index.selectDue _ _ db).
  destruct (0 <? List.length tasks)%nat;
    [|simpl; split; [eexists; reflexivity|now left]].
  pose proof (Index_forOf_prefix SMTP_EMAIL Smtp sendMail tasks s) as Hp.
  pose proof (Index_forOf_rejects_last SMTP_EMAIL Smtp sendMail tasks s) as Hl.
  destruct (Index.forOf SMTP_EMAIL sendMail tasks s) as [[s1 evs] thrown].
  simpl in Hp, Hl.
  assert (He : events (tryCatch (db, s1, evs, thrown) Index.catchBlock) = evs).
  { destruct thrown; simpl; [apply app_nil_r|reflexivity]. }
  rewrite He. split; assumption.
Qed.

(** X3. src/index.js: whenever the formatted lower bound is, as text, above
    the formatted upper bound, the tick selects and sends nothing, whatever
    the store holds. *)
Theorem X3_index_tick_with_inverted_bounds_sends_nothing :
  forall SMTP_EMAIL (Smtp : Type)
         (sendMail : Smtp -> Js.MailOptions -> Smtp * option string)
         now db (s : Smtp),
    String.leb (Index.reminderTimeLower now) (Index.reminderTimeUpper now)
    = false ->
    Index.dueTasks db (Index.reminderTimeLower now)
                      (Index.reminderTimeUpper now) = []
    /\ events (Index.checkAndSendReminders SMTP_EMAIL sendMail now None db s)
       = [].
Proof.
  intros SMTP_EMAIL Smtp sendMail now db s H.
  pose proof (Index_inverted_bounds_select_nothing db _ _ H) as Hd.
  split; [exact Hd|].
  rewrite Index_tick_empty; [reflexivity|].
  unfold Index.selectDue. now rewrite Hd.
Qed.

Lemma X3_witness :
  Index.dueTasks (Db.mkStore Sample.users [Sample.oneOClock])
    (Index.reminderTimeLower Sample.quarterToOne)
    (Index.reminderTimeUpper Sample.quarterToOne) = []
  /\ events (Index.checkAndSendReminders Sample.SMTP_EMAIL Sample.accepting
               Sample.quarterToOne None
               (Db.mkStore Sample.users [Sample.oneOClock]) tt)
     = [].
Proof.
  refine (X3_index_tick_with_inverted_bounds_sends_nothing Sample.SMTP_EMAIL
            unit Sample.accepting Sample.quarterToOne
            (Db.mkStore Sample.users [Sample.oneOClock]) tt _).
  vm_compute. reflexivity.
Defined.

(** X4. The guarded revision: when the owner of every selected task
    resolves, a tick hands one message per selected task to the transport
    whatever the transport answers, ends normally, and leaves a console
    line with the reason for every message the transport refused. *)
Theorem X4_guarded_tick_isolates_every_refusal :
  forall in_ SMTP_EMAIL (Smtp : Type)
         (sendMail : Smtp -> Js.MailOptions -> Smtp * option string)
         now db (s : Smtp),
    let tasks := Part001.selectDue in_
                   (Part001.inOperand (Luxon.plus now 14 30)
                                      (Luxon.plus now 15 30)) db in
    Forall Index.resolved tasks ->
    let r := Part001.checkAndSendReminders in_ SMTP_EMAIL sendMail
               now None db s in
    Js.dispatches (events r) = Part001.mails SMTP_EMAIL tasks
    /\ List.length (Js.dispatches (events r)) = List.length tasks
    /\ rejected r = None
    /\ forall m reason,
         In (Js.SendMail m (Some reason)) (events r) ->
         exists line, In (Js.Console Js.error [line; reason]) (events r).
Proof.
  intros in_ SMTP_EMAIL Smtp sendMail now db s tasks Hres r.
  destruct (Part001_tick_attempts_every_task in_ SMTP_EMAIL Smtp sendMail
              now db s Hres) as (H1 & H2 & H3).
  repeat split; try assumption.
  intros m reason. subst r.
  unfold Part001.checkAndSendReminders, Part001.tryBlock, Db.request,
    Db.reading.
  fold tasks.
  destruct (0 <? List.length tasks)%nat.
  - pose proof (Part001_forOf_logs_rejections SMTP_EMAIL Smtp sendMail now
                  tasks s m reason) as Hl.
    pose proof (Part001_forOf_all SMTP_EMAIL Smtp sendMail now tasks s Hres)
      as Ha.
    destruct (Part001.forOf SMTP_EMAIL sendMail now tasks s)
      as [[s1 evs] thrown].
    destruct Ha as [_ Ha]. subst thrown. simpl in *.
    intros [H|[H|H]]; try discriminate.
    destruct (Hl H) as [line Hline]. exists line. right. right. exact Hline.
  - simpl. intros [H|[H|[]]]; discriminate.
Qed.

Lemma X4_witness :
  let tasks := Part001.selectDue Sample.anyText
                 (Part001.inOperand (Luxon.plus Sample.tenAM 14 30)
                                    (Luxon.plus Sample.tenAM 15 30))
                 (Db.mkStore Sample.users [Sample.gym; Sample.bank]) in
  let r := Part001.checkAndSendReminders Sample.anyText Sample.SMTP_EMAIL
             (Sample.refusing "asha@example.org") Sample.tenAM None
             (Db.mkStore Sample.users [Sample.gym; Sample.bank]) tt in
  Js.dispatches (events r) = Part001.mails Sample.SMTP_EMAIL tasks
  /\ List.length (Js.dispatches (events r)) = List.length tasks
  /\ rejected r = None
  /\ forall m reason,
       In (Js.SendMail m (Some reason)) (events r) ->
       exists line, In (Js.Console Js.error [line; reason]) (events r).
Proof.
  refine (X4_guarded_tick_isolates_every_refusal Sample.anyText
            Sample.SMTP_EMAIL unit (Sample.refusing "asha@example.org")
            Sample.tenAM (Db.mkStore Sample.users [Sample.gym; Sample.bank])
            tt _).
  vm_compute. repeat constructor; discriminate.
Defined.

(* ================================================================== *)
(** * Further properties of the task routes of src/index.js             *)
(* ================================================================== *)

Lemma split_word_app a b :
  Http.split a = [a] -> Http.split (a ++ " " ++ b) = a :: Http.split b.
Proof.
  induction a as [|c a IH]; [reflexivity|].
  intros H. simpl in H.
  destruct (Ascii.eqb c " ") eqn:Ec; [discriminate|].
  destruct (Http.split a) as [|h t] eqn:E; inversion H; subst.
  - simpl in E. discriminate.
  - specialize (IH eq_refl). simpl in IH |- *. now rewrite Ec, IH.
Qed.

Section TaskRoutes.

Import Http.

Variable verify : string -> option (Z * string).
Variable timeofentry_le : option string -> option string -> bool.

Lemma insertDesc_perm p l :
  Permutation (IndexHttp.insertDesc timeofentry_le p l) (p :: l).
Proof.
  induction l as [|q l IH]; simpl; [reflexivity|].
  destruct (timeofentry_le _ _); [reflexivity|].
  rewrite IH. apply perm_swap.
Qed.

Lemma orderDesc_perm l :
  Permutation (IndexHttp.orderDesc timeofentry_le l) l.
Proof.
  induction l as [|p l IH]; simpl; [reflexivity|].
  rewrite insertDesc_perm. now constructor.
Qed.

Lemma insertDesc_sorted p l :
  (forall a b, timeofentry_le a b = true \/ timeofentry_le b a = true) ->
  Sorted (Listing.newestFirst timeofentry_le) l ->
  Sorted (Listing.newestFirst timeofentry_le) (IndexHttp.insertDesc timeofentry_le p l).
Proof.
  intros Htot. induction 1 as [|q l Hl IH Hq]; simpl.
  - repeat constructor.
  - destruct (timeofentry_le (Post.timeofentry q) (Post.timeofentry p)) eqn:E.
    + constructor; [now constructor|]. constructor. exact E.
    + constructor; [exact IH|].
      assert (Hpq : (Listing.newestFirst timeofentry_le) q p).
      { unfold Listing.newestFirst.
        destruct (Htot (Post.timeofentry p) (Post.timeofentry q)) as [H|H];
          [exact H|congruence]. }
      destruct l as [|q' l]; simpl.
      * constructor. exact Hpq.
      * destruct (timeofentry_le (Post.timeofentry q') (Post.timeofentry p));
          constructor; [exact Hpq|]. now inversion Hq.
Qed.

Lemma orderDesc_sorted l :
  (forall a b, timeofentry_le a b = true \/ timeofentry_le b a = true) ->
  Sorted (Listing.newestFirst timeofentry_le) (IndexHttp.orderDesc timeofentry_le l).
Proof.
  intros Htot. induction l as [|p l IH]; simpl; [constructor|].
  now apply insertDesc_sorted.
Qed.

(** Rows that match no update are left as they are. *)
Lemma map_no_hit (hit : Post.row -> bool) set l :
  filter hit l = [] ->
  map (fun q => if hit q then set q else q) l = l.
Proof.
  induction l as [|p l IH]; simpl; [reflexivity|].
  destruct (hit p); [discriminate|]. intros H. now rewrite IH.
Qed.

Lemma updateSingle_error id userId set db m :
  snd (IndexHttp.updateSingle id userId set db) = Db.Error m ->
  fst (IndexHttp.updateSingle id userId set db) = db.
Proof.
  unfold IndexHttp.updateSingle.
  destruct (filter _ (Db.post db)) as [|p [|p' rest]]; simpl;
    try reflexivity; discriminate.
Qed.

End TaskRoutes.

Lemma eq_bool_iff (c : option bool) (b : bool) :
  Db.eq_bool c b = true <-> c = Some b.
Proof.
  destruct c as [[|]|], b; simpl; split; intros H;
    try discriminate; try reflexivity; inversion H.
Qed.

Lemma byStatus_iff userId c k p :
  IndexHttp.byStatus userId c k p = true <->
  Post.user_id p = userId
  /\ Post.completestatus p = Some c /\ Post.currentstatus p = Some k.
Proof.
  unfold IndexHttp.byStatus.
  rewrite !andb_true_iff, owned_iff, !eq_bool_iff. tauto.
Qed.



(** The header [scheme token]: the token is what [validateToken] checks. *)
Lemma validateToken_second_word
    (verify : string -> option (Z * string)) req scheme token :
  Http.authorization req = Some (scheme ++ " " ++ token)%string ->
  Http.split scheme = [scheme] ->
  Http.split token = [token] ->
  token <> ""%string ->
  IndexHttp.validateToken verify req
  = match verify token with
    | Some (userId, _) => inr userId
    | None =>
        inl (Http.mkResponse 403 (Http.Failure "Invalid or expired token"))
    end.
Proof.
  intros Hh Hs Ht Hne.
  unfold IndexHttp.validateToken. rewrite Hh.
  assert (Hnz : ((scheme ++ " " ++ token) =? "")%string = false).
  { apply String.eqb_neq. destruct scheme; discriminate. }
  rewrite Hnz, (split_word_app scheme token Hs), Ht. simpl.
  apply String.eqb_neq in Hne. rewrite Hne. simpl.
  destruct (verify token) as [[u e]|]; reflexivity.
Qed.

(** X6. src/index.js: [validateToken] reads the token as the second word of
    the [authorization] header.  For a header made of a scheme word, one
    space and a non-empty token word, the request goes on as the [userId]
    the token decodes to, and is answered 403 when the token does not
    verify; the scheme word is not looked at. *)
Theorem X6_token_is_the_second_word_of_the_header :
  forall (verify : string -> option (Z * string)) req scheme token,
    Http.authorization req = Some (scheme ++ " " ++ token)%string ->
    Http.split scheme = [scheme] ->
    Http.split token = [token] ->
    token <> ""%string ->
    IndexHttp.validateToken verify req
    = match verify token with
      | Some (userId, _) => inr userId
      | None =>
          inl (Http.mkResponse 403 (Http.Failure "Invalid or expired token"))
      end.
Proof. exact validateToken_second_word. Qed.

Lemma X6_witness :
  IndexHttp.validateToken Sample.verify
    (Http.mkRequest Http.GET_tasks (Some "Anything token-ravi")
       (Http.mkBody None None None None None None None None))
  = match Sample.verify "token-ravi" with
    | Some (userId, _) => inr userId
    | None =>
        inl (Http.mkResponse 403 (Http.Failure "Invalid or expired token"))
    end.
Proof.
  refine (X6_token_is_the_second_word_of_the_header Sample.verify
            (Http.mkRequest Http.GET_tasks (Some "Anything token-ravi")
               (Http.mkBody None None None None None None None None))
            "Anything" "token-ravi" eq_refl eq_refl eq_refl _).
  discriminate.
Defined.

(** X7. src/index.js, GET /tasks and GET /taskschange: when the store
    answers, the listing holds each task of the caller with the asked
    completion flag and a false display flag exactly once, nothing else,
    and, for a total order on [timeofentry], in descending order of it. *)
Theorem X7_listing_is_the_callers_tasks_newest_first :
  forall (timeofentry_le : option string -> option string -> bool)
         userId c failure db,
    (forall a b, timeofentry_le a b = true \/ timeofentry_le b a = true) ->
    let answer := snd (IndexHttp.listTasks timeofentry_le userId c failure
                         None db) in
    let rows := Http.rowsOf (Http.sent answer) in
    Http.status answer = 200
    /\ Permutation rows
         (filter (IndexHttp.byStatus userId c false) (Db.post db))
    /\ (forall p,
          In p rows <->
          In p (Db.post db) /\ Post.user_id p = userId
          /\ Post.completestatus p = Some c
          /\ Post.currentstatus p = Some false)
    /\ Sorted (Listing.newestFirst timeofentry_le) rows.
Proof.
  intros timeofentry_le userId c failure db Htot answer rows.
  subst rows answer. unfold IndexHttp.listTasks, Db.request, Db.reading.
  simpl. split; [reflexivity|]. split; [apply orderDesc_perm|].
  split; [|now apply orderDesc_sorted].
  intros p. rewrite orderDesc_In, filter_In, byStatus_iff. tauto.
Qed.

Lemma sample_timeofentry_le_total a b :
  Sample.timeofentry_le a b = true \/ Sample.timeofentry_le b a = true.
Proof.
  destruct a as [x|], b as [y|]; simpl; auto. apply String.leb_total.
Qed.

Lemma X7_witness :
  let answer := snd (IndexHttp.listTasks Sample.timeofentry_le 1 false
                       "Failed to fetch pending tasks" None
                       (Db.mkStore Sample.users
                          [Sample.gym; Sample.bank; Sample.done; Sample.late]))
  in
  let rows := Http.rowsOf (Http.sent answer) in
  Http.status answer = 200
  /\ Permutation rows
       (filter (IndexHttp.byStatus 1 false false)
               [Sample.gym; Sample.bank; Sample.done; Sample.late])
  /\ (forall p,
        In p rows <->
        In p [Sample.gym; Sample.bank; Sample.done; Sample.late]
        /\ Post.user_id p = 1
        /\ Post.completestatus p = Some false
        /\ Post.currentstatus p = Some false)
  /\ Sorted (Listing.newestFirst Sample.timeofentry_le) rows.
Proof.
  exact (X7_listing_is_the_callers_tasks_newest_first Sample.timeofentry_le
           1 false "Failed to fetch pending tasks"
           (Db.mkStore Sample.users
              [Sample.gym; Sample.bank; Sample.done; Sample.late])
           sample_timeofentry_le_total).
Defined.

(** The pending, the completed and the four kinds of archived tasks are
    disjoint classes of rows. *)
Lemma status_classes_disjoint (l : list Post.row) :
  let flags c k := fun p : Post.row =>
    Db.eq_bool (Post.completestatus p) c
    && Db.eq_bool (Post.currentstatus p) k in
  let ofType ty := fun p : Post.row => (Post.type p =? ty)%string in
  (List.length (filter (flags false false) l)
   + List.length (filter (flags true false) l)
   + List.length (filter (ofType "Personal") (filter (flags true true) l))
   + List.length (filter (ofType "Family") (filter (flags true true) l))
   + List.length (filter (ofType "Work") (filter (flags true true) l))
   + List.length (filter (ofType "Group Activity")
                         (filter (flags true true) l))
   <= List.length l)%nat.
Proof.
  cbv zeta. induction l as [|p l IH]; simpl; [lia|].
  destruct (Post.completestatus p) as [[|]|],
           (Post.currentstatus p) as [[|]|]; simpl; try lia.
  destruct (Post.type p =? "Personal")%string eqn:E1,
           (Post.type p =? "Family")%string eqn:E2,
           (Post.type p =? "Work")%string eqn:E3,
           (Post.type p =? "Group Activity")%string eqn:E4; simpl;
    repeat match goal with
           | H : (_ =? _)%string = true |- _ => apply String.eqb_eq in H
           end;
    try congruence; lia.
Qed.

(** X8. src/index.js: the two summaries agree with the two listings.
    GET /reminders counts all tasks of the caller and reports as pending
    exactly as many as GET /tasks lists; the pending tasks, the tasks
    GET /taskschange lists and the tasks GET /reminderspie counts are
    disjoint, so together they never exceed the total. *)
Theorem X8_summaries_agree_with_the_listings :
  forall (timeofentry_le : option string -> option string -> bool) userId db,
    let listed c :=
      Http.rowsOf
        (Http.sent (snd (IndexHttp.listTasks timeofentry_le userId c
                           (if c then "Failed to fetch completed tasks"
                            else "Failed to fetch pending tasks")
                           None db))) in
    exists personal family work group,
      Http.sent (snd (IndexHttp.getReminders userId None db))
      = Http.Reminders (Z.of_nat (List.length (IndexHttp.own userId db)))
                       (Z.of_nat (List.length (listed false)))
      /\ Http.sent (snd (IndexHttp.getReminderspie userId None db))
         = Http.Pie personal family work group
      /\ 0 <= personal /\ 0 <= family /\ 0 <= work /\ 0 <= group
      /\ Z.of_nat (List.length (listed false))
         + Z.of_nat (List.length (listed true))
         + (personal + family + work + group)
         <= Z.of_nat (List.length (IndexHttp.own userId db)).
Proof.
  intros timeofentry_le userId db listed.
  assert (Hl : forall c,
            List.length (listed c)
            = List.length
                (filter (fun p => Db.eq_bool (Post.completestatus p) c
                                  && Db.eq_bool (Post.currentstatus p) false)
                        (IndexHttp.own userId db))).
  { intros c. subst listed.
    unfold IndexHttp.listTasks, Db.request, Db.reading. simpl.
    rewrite (Permutation_length (orderDesc_perm timeofentry_le _)).
    now rewrite filter_byStatus_own. }
  unfold IndexHttp.getReminders, IndexHttp.getReminderspie, Db.request,
    Db.reading. simpl.
  do 4 eexists. split; [|split; [reflexivity|]].
  - unfold IndexHttp.count, IndexHttp.own. now rewrite Hl.
  - unfold IndexHttp.count. rewrite !Hl, filter_byStatus_own.
    pose proof (status_classes_disjoint (IndexHttp.own userId db)) as H.
    cbv zeta in H. unfold IndexHttp.own in *. lia.
Qed.

(** X9. src/index.js: a task route writes only when it answers 200 or 201;
    with any other answer (401, 403, 400, 500) the store is left exactly as
    it was. *)
Theorem X9_only_a_successful_request_writes :
  forall (verify : string -> option (Z * string))
         (timeofentry_le : option string -> option string -> bool)
         req fault db,
    let out := IndexHttp.serve verify timeofentry_le req fault db in
    Http.status (snd out) <> 200 ->
    Http.status (snd out) <> 201 ->
    fst out = db.
Proof.
  intros verify timeofentry_le req fault db out. subst out.
  unfold IndexHttp.serve.
  destruct (IndexHttp.validateToken verify req) as [refusal|userId];
    [reflexivity|].
  unfold IndexHttp.handler.
  assert (Hpatch : forall id failure,
            Http.status (snd (IndexHttp.patchStatus id userId
                                (Http.payload req) failure fault db)) <> 200 ->
            fst (IndexHttp.patchStatus id userId (Http.payload req) failure
                   fault db) = db).
  { intros id failure. unfold IndexHttp.patchStatus, Db.request.
    destruct fault as [m|]; [reflexivity|].
    pose proof (updateSingle_error id userId
                  (IndexHttp.setStatus (Http.payload req)) db) as He.
    destruct (IndexHttp.updateSingle _ _ _ _) as [db1 [r|m]]; simpl in *.
    - intros H. now elim H.
    - intros _. now apply (He m). }
  destruct (Http.target req) as [| | |id|id|id|id| |]; intros H200 H201.
  - apply listTasks_confined.
  - apply listTasks_confined.
  - revert H200 H201. unfold IndexHttp.postTasks.
    destruct (Http.task _); [|reflexivity].
    destruct (Http.type _); [|reflexivity].
    destruct (Http.remindertime _); [|reflexivity].
    destruct (_ || _); [reflexivity|].
    unfold Db.request. destruct fault; [reflexivity|].
    simpl. intros _ H. now elim H.
  - now apply Hpatch.
  - now apply Hpatch.
  - revert H200 H201. unfold IndexHttp.putTasks.
    destruct (Http.editedtask _) as [e|]; [|reflexivity].
    destruct (negb _); [reflexivity|].
    unfold Db.request. destruct fault as [m|]; [reflexivity|].
    pose proof (updateSingle_error id userId
                  (IndexHttp.setContent e (Http.payload req)) db) as He.
    destruct (IndexHttp.updateSingle _ _ _ _) as [db1 [r|m]]; simpl in *.
    + intros H. now elim H.
    + intros _ _. now apply (He m).
  - now apply Hpatch.
  - unfold IndexHttp.getReminders, Db.request, Db.reading.
    now destruct fault.
  - unfold IndexHttp.getReminderspie, Db.request, Db.reading.
    now destruct fault.
Qed.

(** Ravi asks to mark a task of Asha as done. *)
Lemma X9_witness :
  fst (IndexHttp.serve Sample.verify Sample.timeofentry_le
         (Http.mkRequest (Http.PATCH_tasks 11) (Some "Bearer token-ravi")
            (Http.mkBody None None None (Some true) None (Some false)
                         None None))
         None (Db.mkStore Sample.users [Sample.gym; Sample.bank]))
  = Db.mkStore Sample.users [Sample.gym; Sample.bank].
Proof.
  refine (X9_only_a_successful_request_writes Sample.verify
            Sample.timeofentry_le
            (Http.mkRequest (Http.PATCH_tasks 11) (Some "Bearer token-ravi")
               (Http.mkBody None None None (Some true) None (Some false)
                            None None))
            None (Db.mkStore Sample.users [Sample.gym; Sample.bank]) _ _);
    vm_compute; discriminate.
Defined.

(** X10. src/index.js: a task posted with both flags false comes back with
    the caller's [user_id] and the posted texts, is appended to the table,
    and from then on GET /tasks lists it for the caller and for nobody
    else. *)
Theorem X10_posted_task_is_listed_for_its_owner :
  forall (timeofentry_le : option string -> option string -> bool)
         userId b t ty rt db,
    Http.task b = Some t -> Http.type b = Some ty ->
    Http.remindertime b = Some rt ->
    t <> ""%string -> ty <> ""%string -> rt <> ""%string ->
    Http.completestatus b = Some false ->
    Http.currentstatus b = Some false ->
    let out := IndexHttp.postTasks userId b None db in
    let listed u :=
      Http.rowsOf
        (Http.sent (snd (IndexHttp.listTasks timeofentry_le u false
                           "Failed to fetch pending tasks" None (fst out))))
    in
    exists r,
      snd out = Http.mkResponse 201 (Http.Task r)
      /\ Post.user_id r = userId /\ Post.task r = t /\ Post.type r = ty
      /\ Post.remindertime r = rt
      /\ Post.timeofentry r = Http.timeofentry b
      /\ Db.post (fst out) = (Db.post db ++ [r])%list
      /\ In r (listed userId)
      /\ forall other, other <> userId -> ~ In r (listed other).
Proof.
  intros timeofentry_le userId b t ty rt db Ht Hty Hrt Nt Nty Nrt Hc Hk
         out listed.
  subst listed out. unfold IndexHttp.postTasks.
  rewrite Ht, Hty, Hrt. unfold Http.truthy.
  apply String.eqb_neq in Nt, Nty, Nrt. rewrite Nt, Nty, Nrt. simpl.
  rewrite Hc, Hk.
  eexists. split; [reflexivity|]. simpl.
  repeat split.
  - unfold IndexHttp.listTasks, Db.request, Db.reading. simpl.
    apply orderDesc_In. apply filter_In. split.
    + apply in_or_app. right. now left.
    + apply byStatus_iff. now repeat split.
  - intros other Hother H.
    unfold IndexHttp.listTasks, Db.request, Db.reading in H. simpl in H.
    apply (proj1 (orderDesc_In _ _ _)) in H. apply filter_In in H.
    destruct H as [_ H]. apply byStatus_iff in H. simpl in H.
    destruct H as [H _]. congruence.
Qed.

Lemma X10_witness :
  let b := Http.mkBody (Some "Water plants") (Some "Family")
             (Some "01/12/2026, 09:30:00 AM") (Some false)
             (Some "02/12/2026, 08:00:00 AM") (Some false) None None in
  let out := IndexHttp.postTasks 2 b None
               (Db.mkStore Sample.users [Sample.gym]) in
  let listed u :=
    Http.rowsOf
      (Http.sent (snd (IndexHttp.listTasks Sample.timeofentry_le u false
                         "Failed to fetch pending tasks" None (fst out))))
  in
  exists r,
    snd out = Http.mkResponse 201 (Http.Task r)
    /\ Post.user_id r = 2 /\ Post.task r = "Water plants"
    /\ Post.type r = "Family"
    /\ Post.remindertime r = "02/12/2026, 08:00:00 AM"
    /\ Post.timeofentry r = Http.timeofentry b
    /\ Db.post (fst out) = ([Sample.gym] ++ [r])%list
    /\ In r (listed 2)
    /\ forall other, other <> 2 -> ~ In r (listed other).
Proof.
  refine (X10_posted_task_is_listed_for_its_owner Sample.timeofentry_le 2
            (Http.mkBody (Some "Water plants") (Some "Family")
               (Some "01/12/2026, 09:30:00 AM") (Some false)
               (Some "02/12/2026, 08:00:00 AM") (Some false) None None)
            "Water plants" "Family" "02/12/2026, 08:00:00 AM"
            (Db.mkStore Sample.users [Sample.gym])
            eq_refl eq_refl eq_refl _ _ _ eq_refl eq_refl); discriminate.
Defined.

(** X11. src/index.js, PATCH /tasks/:id, /dtasks/:id and /taskschange/:id:
    when exactly one task of the caller has the identifier and the body
    sets the completion flag to [c] and the display flag to false, the
    answer is 200 with that task, only its two flags changed; afterwards
    the listing for [c] shows it, the listing for the opposite flag shows
    no task of that identifier, and every other row of the table is
    untouched. *)
Theorem X11_patched_task_moves_between_the_listings :
  forall (timeofentry_le : option string -> option string -> bool)
         id userId b c failure db p,
    filter (fun q => (Post.id q =? id) && IndexHttp.owned userId q)
           (Db.post db) = [p] ->
    Http.completestatus b = Some c ->
    Http.currentstatus b = Some false ->
    let out := IndexHttp.patchStatus id userId b failure None db in
    let listed k :=
      Http.rowsOf
        (Http.sent (snd (IndexHttp.listTasks timeofentry_le userId k
                           (if k then "Failed to fetch completed tasks"
                            else "Failed to fetch pending tasks")
                           None (fst out)))) in
    let updated :=
      Post.mk (Post.id p) (Post.user_id p) (Post.task p) (Post.type p)
              (Post.timeofentry p) (Some c) (Post.remindertime p)
              (Some false) in
    snd out = Http.mkResponse 200 (Http.Task updated)
    /\ In updated (listed c)
    /\ (forall q, In q (listed (negb c)) -> Post.id q <> id)
    /\ (forall q, In q (Db.post db) ->
                  Post.id q <> id \/ Post.user_id q <> userId ->
                  In q (Db.post (fst out)))
    /\ List.length (Db.post (fst out)) = List.length (Db.post db).
Proof.
  intros timeofentry_le id userId b c failure db p Hone Hc Hk out listed
         updated.
  set (hit := fun q => (Post.id q =? id) && IndexHttp.owned userId q) in *.
  assert (Hout : out
                 = (Db.mkStore (Db.logindata db)
                      (map (fun q => if hit q
                                     then IndexHttp.setStatus b q else q)
                           (Db.post db)),
                    Http.mkResponse 200 (Http.Task updated))).
  { subst out updated. unfold IndexHttp.patchStatus, Db.request,
      IndexHttp.updateSingle. fold hit. rewrite Hone.
    unfold IndexHttp.setStatus. now rewrite Hc, Hk. }
  assert (Hp : In p (Db.post db) /\ hit p = true).
  { apply filter_In. rewrite Hone. now left. }
  destruct Hp as [Hpin Hphit].
  assert (Hset : IndexHttp.setStatus b p = updated).
  { subst updated. unfold IndexHttp.setStatus. now rewrite Hc, Hk. }
  assert (Hrows : forall q,
            In q (Db.post (fst out)) ->
            Post.id q = id -> Post.user_id q = userId ->
            Post.completestatus q = Some c).
  { intros q Hq Hid Hu. rewrite Hout in Hq. simpl in Hq.
    apply in_map_iff in Hq. destruct Hq as [q0 [Hq0 Hin0]].
    destruct (hit q0) eqn:E.
    - subst q. unfold IndexHttp.setStatus. simpl. now rewrite Hc.
    - subst q0. unfold hit in E.
      apply andb_false_iff in E. destruct E as [E|E].
      + apply Z.eqb_neq in E. contradiction.
      + unfold IndexHttp.owned in E. apply Z.eqb_neq in E. contradiction. }
  split; [now rewrite Hout|]. split; [|split; [|split]].
  - subst listed. unfold IndexHttp.listTasks, Db.request, Db.reading. simpl.
    apply orderDesc_In. apply filter_In. split.
    + rewrite Hout. simpl. apply in_map_iff. exists p.
      rewrite Hphit. split; [exact Hset|exact Hpin].
    + apply byStatus_iff. subst updated. simpl.
      unfold hit in Hphit. apply andb_true_iff in Hphit.
      destruct Hphit as [_ Ho]. apply owned_iff in Ho. now repeat split.
  - intros q Hq Hid. subst listed.
    unfold IndexHttp.listTasks, Db.request, Db.reading in Hq. simpl in Hq.
    apply (proj1 (orderDesc_In _ _ _)) in Hq. apply filter_In in Hq.
    destruct Hq as [Hq Hs]. apply byStatus_iff in Hs.
    destruct Hs as (Hu & Hcs & _).
    rewrite (Hrows q Hq Hid Hu) in Hcs. inversion Hcs.
    now destruct c.
  - intros q Hq Hother. rewrite Hout. simpl. apply in_map_iff. exists q.
    split; [|exact Hq].
    assert (E : hit q = false).
    { unfold hit. apply andb_false_iff. destruct Hother as [H|H].
      - left. now apply Z.eqb_neq.
      - right. unfold IndexHttp.owned. now apply Z.eqb_neq. }
    now rewrite E.
  - rewrite Hout. simpl. apply length_map.
Qed.

(** Asha marks her gym task as done. *)
Lemma X11_witness :
  let db := Db.mkStore Sample.users [Sample.gym; Sample.bank; Sample.late] in
  let b := Http.mkBody None None None (Some true) None (Some false)
             None None in
  let out := IndexHttp.patchStatus 11 1 b "Failed to update task status"
               None db in
  let listed k :=
    Http.rowsOf
      (Http.sent (snd (IndexHttp.listTasks Sample.timeofentry_le 1 k
                         (if k then "Failed to fetch completed tasks"
                          else "Failed to fetch pending tasks")
                         None (fst out)))) in
  let updated :=
    Post.mk (Post.id Sample.gym) (Post.user_id Sample.gym)
            (Post.task Sample.gym) (Post.type Sample.gym)
            (Post.timeofentry Sample.gym) (Some true)
            (Post.remindertime Sample.gym) (Some false) in
  snd out = Http.mkResponse 200 (Http.Task updated)
  /\ In updated (listed true)
  /\ (forall q, In q (listed (negb true)) -> Post.id q <> 11)
  /\ (forall q, In q (Db.post db) ->
                Post.id q <> 11 \/ Post.user_id q <> 1 ->
                In q (Db.post (fst out)))
  /\ List.length (Db.post (fst out)) = List.length (Db.post db).
Proof.
  exact (X11_patched_task_moves_between_the_listings Sample.timeofentry_le
           11 1
           (Http.mkBody None None None (Some true) None (Some false)
                        None None)
           true "Failed to update task status"
           (Db.mkStore Sample.users [Sample.gym; Sample.bank; Sample.late])
           Sample.gym eq_refl eq_refl eq_refl).
Defined.




(* ================================================================== *)
(** * Properties of the account routes of src/index.js                  *)
(* ================================================================== *)



Lemma length_zero_nil {A : Type} (l : list A) :
  (0 <? List.length l)%nat = false -> l = [].
Proof. destruct l; [reflexivity|discriminate]. Qed.

Section Accounts.

Variable hash : string -> string -> string.
Variable compare : string -> string -> bool.
Variable sign : Z -> string -> string.

(** What a registration does when it answers 201. *)
Lemma register_created salt b checkFault insertFault db u :
  snd (IndexAuth.register hash salt b checkFault insertFault db)
  = IndexAuth.mkResponse 201 (IndexAuth.Registered u) ->
  exists e pw fn ln,
    IndexAuth.email b = Some e /\ IndexAuth.password b = Some pw
    /\ IndexAuth.firstname b = Some fn /\ IndexAuth.lastname b = Some ln
    /\ IndexAuth.byEmail e db = []
    /\ u = IndexAuth.User.mk (IndexAuth.nextId db) e fn ln
    /\ fst (IndexAuth.register hash salt b checkFault insertFault db)
       = Db.mkStore
           (Db.logindata db
            ++ [Logindata.mk (IndexAuth.nextId db) e (hash salt pw) fn ln])
           (Db.post db).
Proof.
  unfold IndexAuth.register.
  destruct (IndexAuth.email b) as [e|]; [|discriminate].
  destruct (IndexAuth.password b) as [pw|]; [|discriminate].
  destruct (IndexAuth.firstname b) as [fn|]; [|discriminate].
  destruct (IndexAuth.lastname b) as [ln|]; [|discriminate].
  destruct (_ || _); [discriminate|].
  unfold Db.request, Db.reading.
  destruct checkFault; [discriminate|].
  destruct (0 <? List.length (IndexAuth.byEmail e db))%nat eqn:E;
    [discriminate|].
  apply length_zero_nil in E.
  destruct insertFault; [discriminate|].
  simpl. intros H. inversion H; subst u.
  exists e, pw, fn, ln. repeat split; assumption.
Qed.

(** Every other answer of a registration leaves the store as it was. *)
Lemma register_not_created salt b checkFault insertFault db :
  IndexAuth.status
    (snd (IndexAuth.register hash salt b checkFault insertFault db)) <> 201 ->
  fst (IndexAuth.register hash salt b checkFault insertFault db) = db.
Proof.
  unfold IndexAuth.register.
  destruct (IndexAuth.email b) as [e|]; [|reflexivity].
  destruct (IndexAuth.password b) as [pw|]; [|reflexivity].
  destruct (IndexAuth.firstname b) as [fn|]; [|reflexivity].
  destruct (IndexAuth.lastname b) as [ln|]; [|reflexivity].
  destruct (_ || _); [reflexivity|].
  unfold Db.request, Db.reading.
  destruct checkFault; [reflexivity|].
  destruct (0 <? List.length (IndexAuth.byEmail e db))%nat; [reflexivity|].
  destruct insertFault; [reflexivity|].
  simpl. intros H. now elim H.
Qed.

Lemma status_201_dec (r : IndexAuth.response) :
  IndexAuth.status r = 201 \/ IndexAuth.status r <> 201.
Proof. lia. Qed.

(** A registration answers 201 only with the new account. *)
Lemma register_201 salt b checkFault insertFault db :
  IndexAuth.status
    (snd (IndexAuth.register hash salt b checkFault insertFault db)) = 201 ->
  exists u,
    snd (IndexAuth.register hash salt b checkFault insertFault db)
    = IndexAuth.mkResponse 201 (IndexAuth.Registered u).
Proof.
  unfold IndexAuth.register.
  destruct (IndexAuth.email b) as [e|]; [|discriminate].
  destruct (IndexAuth.password b) as [pw|]; [|discriminate].
  destruct (IndexAuth.firstname b) as [fn|]; [|discriminate].
  destruct (IndexAuth.lastname b) as [ln|]; [|discriminate].
  destruct (_ || _); [discriminate|].
  unfold Db.request, Db.reading.
  destruct checkFault; [discriminate|].
  destruct (0 <? List.length (IndexAuth.byEmail e db))%nat; [discriminate|].
  destruct insertFault; [discriminate|].
  simpl. intros _. eexists. reflexivity.
Qed.

(** What a login does when it answers with a token. *)
Lemma login_granted b fault db tok fn ln :
  snd (IndexAuth.login compare sign b fault db)
  = IndexAuth.mkResponse 200 (IndexAuth.LoggedIn tok fn ln) ->
  exists user pw,
    IndexAuth.byEmail (Logindata.email user) db = [user]
    /\ In user (Db.logindata db)
    /\ IndexAuth.email b = Some (Logindata.email user)
    /\ IndexAuth.password b = Some pw
    /\ compare pw (Logindata.password user) = true
    /\ tok = sign (Logindata.id user) (Logindata.email user)
    /\ fn = Logindata.firstname user /\ ln = Logindata.lastname user.
Proof.
  unfold IndexAuth.login.
  destruct (IndexAuth.email b) as [e|]; [|discriminate].
  destruct (IndexAuth.password b) as [pw|]; [|discriminate].
  destruct (_ || _); [discriminate|].
  unfold Db.request, IndexAuth.selectSingle.
  destruct fault; [discriminate|].
  destruct (IndexAuth.byEmail e db) as [|user [|user' rest]] eqn:E;
    try discriminate.
  simpl. destruct (compare pw (Logindata.password user)) eqn:Ec;
    [|discriminate].
  simpl. intros H. inversion H; subst.
  assert (Hu : In user (IndexAuth.byEmail e db)) by (rewrite E; now left).
  unfold IndexAuth.byEmail in Hu. apply filter_In in Hu.
  destruct Hu as [Hin He]. apply String.eqb_eq in He. subst e.
  exists user, pw. repeat split; assumption.
Qed.

End Accounts.



(** X15. src/index.js, POST /register: when an account already carries the
    email and the lookup succeeds, a complete registration is answered 409,
    the password is not hashed into the store and nothing is written. *)
Theorem X15_registration_of_a_taken_email_is_a_conflict :
  forall (hash : string -> string -> string) salt b e pw fn ln insertFault
         db l,
    IndexAuth.email b = Some e -> IndexAuth.password b = Some pw ->
    IndexAuth.firstname b = Some fn -> IndexAuth.lastname b = Some ln ->
    e <> ""%string -> pw <> ""%string -> fn <> ""%string ->
    ln <> ""%string ->
    In l (Db.logindata db) -> Logindata.email l = e ->
    IndexAuth.register hash salt b None insertFault db
    = (db, IndexAuth.mkResponse 409
             (IndexAuth.Failure "Email already registered")).
Proof.
  intros hash salt b e pw fn ln insertFault db l He Hpw Hfn Hln Ne Npw Nfn
         Nln Hin Hl.
  unfold IndexAuth.register. rewrite He, Hpw, Hfn, Hln.
  unfold Http.truthy. apply String.eqb_neq in Ne, Npw, Nfn, Nln.
  rewrite Ne, Npw, Nfn, Nln. simpl.
  assert (Hex : In l (IndexAuth.byEmail e db)).
  { unfold IndexAuth.byEmail. apply filter_In. split; [exact Hin|].
    now apply String.eqb_eq. }
  destruct (IndexAuth.byEmail e db); [contradiction|reflexivity].
Qed.

Lemma X15_witness :
  IndexAuth.register SampleAuth.hash "abcd"
    (IndexAuth.mkBody (Some "asha@example.org") (Some "other") (Some "A")
                      (Some "R"))
    None None SampleAuth.db
  = (SampleAuth.db,
     IndexAuth.mkResponse 409 (IndexAuth.Failure "Email already registered")).
Proof.
  refine (X15_registration_of_a_taken_email_is_a_conflict SampleAuth.hash
            "abcd"
            (IndexAuth.mkBody (Some "asha@example.org") (Some "other")
                              (Some "A") (Some "R"))
            "asha@example.org" "other" "A" "R" None SampleAuth.db
            SampleAuth.asha eq_refl eq_refl eq_refl eq_refl _ _ _ _
            (or_introl eq_refl) eq_refl); discriminate.
Defined.





(** X18. src/index.js: login and [validateToken] fit together.  When
    [jwt.verify] gives back what [jwt.sign] was given for the accounts of
    the store, the token of a 200 login, sent as [Bearer <token>], lets the
    request through as the account that logged in (the token being one
    non-empty word). *)
Theorem X18_token_of_a_login_authenticates_its_account :
  forall (compare : string -> string -> bool) (sign : Z -> string -> string)
         (verify : string -> option (Z * string))
         b fault db tok fn ln req,
    snd (IndexAuth.login compare sign b fault db)
    = IndexAuth.mkResponse 200 (IndexAuth.LoggedIn tok fn ln) ->
    (forall user, In user (Db.logindata db) ->
       verify (sign (Logindata.id user) (Logindata.email user))
       = Some (Logindata.id user, Logindata.email user)) ->
    Http.split tok = [tok] -> tok <> ""%string ->
    Http.authorization req = Some ("Bearer " ++ tok)%string ->
    exists user,
      In user (Db.logindata db)
      /\ IndexAuth.email b = Some (Logindata.email user)
      /\ IndexHttp.validateToken verify req = inr (Logindata.id user).
Proof.
  intros compare sign verify b fault db tok fn ln req Hlogin Hlaw Hword Hne
         Hauth.
  destruct (login_granted compare sign b fault db tok fn ln Hlogin)
    as (user & pw & H1 & H2 & H3 & H4 & H5 & H6 & H7 & H8).
  exists user. repeat split; try assumption.
  rewrite (validateToken_second_word verify req "Bearer" tok Hauth eq_refl
             Hword Hne).
  subst tok. now rewrite (Hlaw user H2).
Qed.

Lemma X18_witness :
  exists user,
    In user (Db.logindata SampleAuth.db)
    /\ IndexAuth.email
         (IndexAuth.mkBody (Some "asha@example.org") (Some "pw-asha")
                           None None)
       = Some (Logindata.email user)
    /\ IndexHttp.validateToken Sample.verify
         (Http.mkRequest Http.GET_tasks (Some "Bearer token-asha")
            (Http.mkBody None None None None None None None None))
       = inr (Logindata.id user).
Proof.
  refine (X18_token_of_a_login_authenticates_its_account SampleAuth.compare
            SampleAuth.sign Sample.verify
            (IndexAuth.mkBody (Some "asha@example.org") (Some "pw-asha")
                              None None)
            None SampleAuth.db "token-asha" "Asha" "Rao"
            (Http.mkRequest Http.GET_tasks (Some "Bearer token-asha")
               (Http.mkBody None None None None None None None None))
            eq_refl _ eq_refl _ eq_refl).
  - intros user [H|[H|[]]]; subst user; reflexivity.
  - discriminate.
Defined.

(** X19. src/index.js, GET /usercount: the route needs no token, never
    writes, and counts the accounts: after a registration it answers one
    more than before when the registration was answered 201, and the same
    number otherwise. *)
Theorem X19_usercount_follows_registrations :
  forall (hash : string -> string -> string) salt b checkFault insertFault
         fault db,
    let out := IndexAuth.register hash salt b checkFault insertFault db in
    fst (IndexAuth.usercount fault db) = db
    /\ snd (IndexAuth.usercount None db)
       = IndexAuth.mkResponse 200
           (IndexAuth.Usercount (Z.of_nat (List.length (Db.logindata db))))
    /\ snd (IndexAuth.usercount None (fst out))
       = IndexAuth.mkResponse 200
           (IndexAuth.Usercount
              (Z.of_nat (List.length (Db.logindata db))
               + (if IndexAuth.status (snd out) =? 201 then 1 else 0))).
Proof.
  intros hash salt b checkFault insertFault fault db out. subst out.
  split; [unfold IndexAuth.usercount, Db.request; now destruct fault|].
  split; [reflexivity|].
  unfold IndexAuth.usercount, Db.request, Db.reading.
  destruct (status_201_dec
              (snd (IndexAuth.register hash salt b checkFault insertFault db)))
    as [H|H].
  - destruct (register_201 hash salt b checkFault insertFault db H)
      as [u Hu].
    destruct (register_created hash salt b checkFault insertFault db u Hu)
      as (e & pw & fn & ln & _ & _ & _ & _ & _ & _ & Hdb).
    rewrite Hdb, H. simpl. rewrite length_app, Nat2Z.inj_add. reflexivity.
  - rewrite (register_not_created hash salt b checkFault insertFault db H).
    apply Z.eqb_neq in H. rewrite H, Z.add_0_r. reflexivity.
Qed.

(* ================================================================== *)
(** * Properties of the task routes of the pg revision                  *)
(* ================================================================== *)

Section PgRoutes.

Import Http.

Variable timeofentry_le : option string -> option string -> bool.

Lemma store_eta db : Db.mkStore (Db.logindata db) (Db.post db) = db.
Proof. now destruct db. Qed.

Lemma pg_patchStatus_confined id userId b missing failure fault db :
  let out := Part000Http.patchStatus id userId b missing failure fault db in
  (forall p, In p (rowsOf (sent (snd out))) -> Post.user_id p = userId)
  /\ IndexHttp.foreign userId (fst out) = IndexHttp.foreign userId db
  /\ Db.logindata (fst out) = Db.logindata db
  /\ (status (snd out) <> 200 -> fst out = db).
Proof.
  unfold Part000Http.patchStatus, Db.request.
  destruct fault as [m|]; simpl.
  - repeat split. intros p [].
  - unfold Part000Http.updateReturning.
    set (hit := fun q => (Post.id q =? id) && IndexHttp.owned userId q).
    assert (Hfor : IndexHttp.foreign userId
                     (Db.mkStore (Db.logindata db)
                        (map (fun q => if hit q
                                       then Part000Http.setStatus b q else q)
                             (Db.post db)))
                   = IndexHttp.foreign userId db).
    { unfold IndexHttp.foreign. simpl. apply foreign_map.
      - intros q Hq. unfold hit in Hq. apply andb_true_iff in Hq. tauto.
      - reflexivity. }
    destruct (filter hit (Db.post db)) as [|p rest] eqn:E; simpl.
    + repeat split; try assumption.
      * intros p [].
      * intros _. rewrite (map_no_hit hit _ _ E). apply store_eta.
    + repeat split; try assumption.
      * intros q [Hq|[]]. subst q. simpl.
        assert (Hp : In p (filter hit (Db.post db))) by (rewrite E; now left).
        apply filter_In in Hp. destruct Hp as [_ Hp]. unfold hit in Hp.
        apply andb_true_iff in Hp. destruct Hp as [_ Hp].
        now apply owned_iff.
      * intros H. now elim H.
Qed.

End PgRoutes.

(** X20. The pg revision: every embedded task route works for the user it
    is called for and for nobody else.  The task rows of an answer have
    that [user_id], the rows of other users and the accounts are after the
    request what they were before, and the store changes only with a 200
    or 201 answer. *)
Theorem X20_pg_task_routes_are_confined_to_their_user :
  forall (timeofentry_le : option string -> option string -> bool)
         userId target b fault db,
    let out := Part000Http.handler timeofentry_le userId target b fault db in
    (forall p, In p (Http.rowsOf (Http.sent (snd out))) ->
               Post.user_id p = userId)
    /\ IndexHttp.foreign userId (fst out) = IndexHttp.foreign userId db
    /\ Db.logindata (fst out) = Db.logindata db
    /\ (Http.status (snd out) <> 200 -> Http.status (snd out) <> 201 ->
        fst out = db).
Proof.
  intros timeofentry_le userId target b fault db out. subst out.
  assert (Hlist : forall c failure,
    let out := Part000Http.listTasks timeofentry_le userId c failure fault db
    in
    (forall p, In p (Http.rowsOf (Http.sent (snd out))) ->
               Post.user_id p = userId)
    /\ fst out = db).
  { intros c failure. unfold Part000Http.listTasks, Db.request, Db.reading.
    destruct fault as [m|]; simpl; (split; [|reflexivity]).
    - intros p [].
    - intros p Hp. apply (proj1 (orderDesc_In _ _ _)) in Hp.
      apply filter_In in Hp. destruct Hp as [_ Hp].
      now apply byStatus_owned in Hp. }
  unfold Part000Http.handler.
  destruct target as [| | |id|id|id| |].
  - destruct (Hlist false "Failed to fetch pending tasks") as [H1 H2].
    rewrite H2. repeat split; auto.
  - destruct (Hlist true "Failed to fetch completed tasks") as [H1 H2].
    rewrite H2. repeat split; auto.
  - unfold Part000Http.postTasks.
    destruct (Http.task b) as [t|]; [|simpl; repeat split; intros p []].
    destruct (Http.type b) as [ty|]; [|simpl; repeat split; intros p []].
    destruct (Http.remindertime b) as [rt|];
      [|simpl; repeat split; intros p []].
    destruct (_ || _); [simpl; repeat split; intros p []|].
    unfold Db.request. destruct fault as [m|]; simpl.
    + repeat split. intros p [].
    + repeat split.
      * intros p [Hp|[]]. subst p. reflexivity.
      * unfold IndexHttp.foreign. simpl. rewrite filter_app. simpl.
        unfold IndexHttp.owned at 2. simpl. rewrite Z.eqb_refl. simpl.
        apply app_nil_r.
      * intros _ H. now elim H.
  - destruct (pg_patchStatus_confined id userId b
                "Task not found or unauthorized"
                "Failed to update task status" fault db) as (H1 & H2 & H3 & H4).
    repeat split; auto.
  - destruct (pg_patchStatus_confined id userId b
                "Task not found or unauthorized"
                "Failed to update task status" fault db) as (H1 & H2 & H3 & H4).
    repeat split; auto.
  - destruct (pg_patchStatus_confined id userId b
                "Task not found or unauthorized"
                "Failed to undo task" fault db) as (H1 & H2 & H3 & H4).
    repeat split; auto.
  - unfold Part000Http.getReminders, Db.request, Db.reading.
    destruct fault; simpl; repeat split; auto; intros p [].
  - unfold Part000Http.getReminderspie, Db.request, Db.reading.
    destruct fault; simpl; repeat split; auto; intros p [].
Qed.

(** X21. The pg revision, PATCH /tasks/:id, /dtasks/:id and
    /taskschange/:id: when the store answers, the request is answered 404
    exactly when no task of the caller carries the identifier, and then
    nothing is written; otherwise every task of the caller with that
    identifier ends up with the two flags of the body, a flag the body
    lacks being stored as NULL. *)
Theorem X21_pg_patch_answers_404_or_writes_both_flags :
  forall id userId b missing failure db,
    let out := Part000Http.patchStatus id userId b missing failure None db in
    let mine q := (Post.id q =? id) && IndexHttp.owned userId q in
    (Http.status (snd out) = 404 <-> filter mine (Db.post db) = [])
    /\ (Http.status (snd out) = 404 -> fst out = db)
    /\ (forall q, In q (Db.post (fst out)) -> mine q = true ->
                  Post.completestatus q = Http.completestatus b
                  /\ Post.currentstatus q = Http.currentstatus b).
Proof.
  intros id userId b missing failure db out mine.
  subst out. unfold Part000Http.patchStatus, Db.request,
    Part000Http.updateReturning.
  fold mine.
  split; [|split].
  - destruct (filter mine (Db.post db)) as [|p rest]; simpl.
    + split; reflexivity.
    + split; discriminate.
  - destruct (filter mine (Db.post db)) as [|p rest] eqn:E; simpl.
    + intros _. rewrite (map_no_hit mine _ _ E).
      now destruct db.
    + discriminate.
  - intros q Hq Hm.
    assert (Hin : In q (map (fun q => if mine q
                                      then Part000Http.setStatus b q else q)
                            (Db.post db))).
    { destruct (map (Part000Http.setStatus b) (filter mine (Db.post db)));
        exact Hq. }
    apply in_map_iff in Hin. destruct Hin as [q0 [Hq0 _]].
    destruct (mine q0) eqn:E0.
    + subst q. split; reflexivity.
    + subst q0. congruence.
Qed.

(* ================================================================== *)
(** * Properties of the sweep query and the account routes of the pg
      revision                                                          *)
(* ================================================================== *)

(** X22. The pg revision: when the query of a tick succeeds, its rows are,
    in join order, the SELECT list of exactly those pairs of a task and its
    account for which the completion flag is false and the converted
    reminder lies between the two converted bounds, both included; a task
    without account is never among them. *)
Theorem X22_pg_sweep_selects_by_converted_instant :
  forall (TO_TIMESTAMP timestamp_in : string -> option Z) now db rows,
    snd (Part000.query TO_TIMESTAMP timestamp_in None
           (Part000.reminderTimeLower now, Part000.reminderTimeUpper now) db)
    = Db.Data rows ->
    exists lo hi,
      timestamp_in (Part000.reminderTimeLower now) = Some lo
      /\ timestamp_in (Part000.reminderTimeUpper now) = Some hi
      /\ map Some rows
         = map (Part000.selectList TO_TIMESTAMP)
               (filter (Part000.chosen TO_TIMESTAMP lo hi) (Part000.joined db))
      /\ forall p l,
           In (p, l) (Part000.joined db) ->
           (Part000.chosen TO_TIMESTAMP lo hi (p, l) = true <->
            Post.completestatus p = Some false
            /\ exists ts, TO_TIMESTAMP (Post.remindertime p) = Some ts
                          /\ lo <= ts <= hi)
           /\ In p (Db.post db) /\ In l (Db.logindata db)
           /\ Logindata.id l = Post.user_id p.
Proof.
  intros TO_TIMESTAMP timestamp_in now db rows.
  unfold Part000.query, Db.request, Part000.statement. simpl.
  destruct (timestamp_in (Part000.reminderTimeLower now)) as [lo|];
    [|discriminate].
  destruct (timestamp_in (Part000.reminderTimeUpper now)) as [hi|];
    [|discriminate].
  destruct (Part000.where_ TO_TIMESTAMP lo hi (Part000.joined db))
    as [rows'|] eqn:E; [|discriminate].
  simpl. intros H. inversion H; subst rows'.
  exists lo, hi. split; [reflexivity|]. split; [reflexivity|].
  split; [symmetry; now apply Part000_where_rows|].
  intros p l Hin. split; [|now apply joined_sound].
  unfold Part000.chosen. simpl. rewrite <- Part000_whereClause_iff.
  destruct (Part000.whereClause TO_TIMESTAMP lo hi p) as [[|]|];
    split; intros Hx; try reflexivity; discriminate.
Qed.

Lemma X22_witness :
  exists lo hi,
    Spec.parseReminder (Part000.reminderTimeLower Sample.tenAM) = Some lo
    /\ Spec.parseReminder (Part000.reminderTimeUpper Sample.tenAM) = Some hi
    /\ map Some
         [Part000.mkRow "01/12/2026, 10:14:45 AM" (Some false) "Personal"
            "Gym" "asha@example.org" "Asha" "Rao" 1796100285000]
       = map (Part000.selectList Spec.parseReminder)
             (filter (Part000.chosen Spec.parseReminder lo hi)
                     (Part000.joined
                        (Db.mkStore Sample.users
                           [Sample.gym; Sample.orphan; Sample.evening])))
    /\ forall p l,
         In (p, l)
            (Part000.joined
               (Db.mkStore Sample.users
                  [Sample.gym; Sample.orphan; Sample.evening])) ->
         (Part000.chosen Spec.parseReminder lo hi (p, l) = true <->
          Post.completestatus p = Some false
          /\ exists ts, Spec.parseReminder (Post.remindertime p) = Some ts
                        /\ lo <= ts <= hi)
         /\ In p [Sample.gym; Sample.orphan; Sample.evening]
         /\ In l Sample.users
         /\ Logindata.id l = Post.user_id p.
Proof.
  refine (X22_pg_sweep_selects_by_converted_instant Spec.parseReminder
            Spec.parseReminder Sample.tenAM
            (Db.mkStore Sample.users
               [Sample.gym; Sample.orphan; Sample.evening])
            [Part000.mkRow "01/12/2026, 10:14:45 AM" (Some false) "Personal"
               "Gym" "asha@example.org" "Asha" "Rao" 1796100285000]
            _).
  vm_compute. reflexivity.
Defined.




